(** * A shallow embedding of the travel planner's dialog graph and itinerary agent

    Sources: [graph/travel_graph.py] (the dialog node and its state schema) and
    [agents/itinerary_agent.py] (fun facts, geocoding, the two weather
    endpoints, the itinerary builder).

    Modelling conventions.
    - Python strings are [String.string]; the string helpers below ([py_strip],
      [py_lower], [py_title], [py_split], [find_digit_runs]) follow CPython on
      ASCII text.
    - Floats coming from the weather provider are modelled as exact rationals
      [Q]; [py_round] is Python's [round] (ties to even).
    - Python's optional dictionary keys are [option]s; Python truthiness of an
      optional string / int / list is spelled out by [truthy_str],
      [truthy_nat] and list emptiness.
    - Everything that touches the outside world (the environment variables,
      the Hugging Face client, [random.choice], the three HTTP endpoints) is
      read from an explicit environment [Env]; a raised Python exception is
      the [Raise] branch of the [result] type. *)

From Stdlib Require Import List String Ascii ZArith QArith Qround Lia Lqa Bool Sorted.
Import ListNotations.
Open Scope nat_scope.
Open Scope string_scope.

(* ------------------------------------------------------------------ *)
(** ** Character and string helpers (CPython [str] methods on ASCII) *)

Module PyStr.

Local Open Scope nat_scope.

Definition code (c : ascii) : nat := nat_of_ascii c.

(** [str.isspace] on ASCII: \t \n \v \f \r, the separators \x1c-\x1f and space. *)
Definition is_space (c : ascii) : bool :=
  let n := code c in
  ((9 <=? n) && (n <=? 13)) || ((28 <=? n) && (n <=? 32)).

Definition is_upper (c : ascii) : bool := (65 <=? code c) && (code c <=? 90).
Definition is_lower (c : ascii) : bool := (97 <=? code c) && (code c <=? 122).
Definition is_alpha (c : ascii) : bool := is_upper c || is_lower c.
Definition is_digit (c : ascii) : bool := (48 <=? code c) && (code c <=? 57).

Definition to_lower (c : ascii) : ascii :=
  if is_upper c then ascii_of_nat (code c + 32) else c.
Definition to_upper (c : ascii) : ascii :=
  if is_lower c then ascii_of_nat (code c - 32) else c.

Fixpoint map_chars (f : ascii -> ascii) (s : string) : string :=
  match s with
  | EmptyString => EmptyString
  | String c s' => String (f c) (map_chars f s')
  end.

(** [str.lower] *)
Definition py_lower (s : string) : string := map_chars to_lower s.

Fixpoint lstrip (s : string) : string :=
  match s with
  | EmptyString => EmptyString
  | String c s' => if is_space c then lstrip s' else s
  end.

Definition rev_str (s : string) : string :=
  string_of_list_ascii (rev (list_ascii_of_string s)).

(** [str.strip()] *)
Definition py_strip (s : string) : string := rev_str (lstrip (rev_str (lstrip s))).

(** [str.title]: a cased letter is upper-cased when it follows an uncased
    character and lower-cased when it follows a cased one. *)
Fixpoint title_from (prev_cased : bool) (s : string) : string :=
  match s with
  | EmptyString => EmptyString
  | String c s' =>
      if is_alpha c
      then String (if prev_cased then to_lower c else to_upper c) (title_from true s')
      else String c (title_from false s')
  end.

Definition py_title (s : string) : string := title_from false s.

(** [str.split(sep)] with a one-character separator: keeps empty pieces. *)
Fixpoint split_acc (sep : ascii) (cur : string) (s : string) : list string :=
  match s with
  | EmptyString => [cur]
  | String c s' =>
      if Ascii.eqb c sep then cur :: split_acc sep EmptyString s'
      else split_acc sep (cur ++ String c EmptyString) s'
  end.

Definition py_split (sep : ascii) (s : string) : list string := split_acc sep EmptyString s.

(** ["sep".join(xs)] *)
Fixpoint py_join (sep : string) (xs : list string) : string :=
  match xs with
  | [] => EmptyString
  | [x] => x
  | x :: xs' => x ++ sep ++ py_join sep xs'
  end.

(** Decimal rendering of [str(n)] for a natural number. *)
Fixpoint digits_rev (fuel n : nat) : string :=
  match fuel with
  | O => EmptyString
  | S f =>
      let d := String (ascii_of_nat (48 + n mod 10)) EmptyString in
      if n <? 10 then d else digits_rev f (n / 10) ++ d
  end.

Definition show_nat (n : nat) : string := digits_rev (S n) n.

Definition show_Z (z : Z) : string :=
  match z with
  | Z.neg p => "-" ++ show_nat (Pos.to_nat p)
  | _ => show_nat (Z.to_nat z)
  end.

(** [re.findall(r"(\d+)", text)] followed by [int(x)]: the values of the
    maximal runs of decimal digits, left to right. *)
Fixpoint find_digit_runs (cur : option nat) (s : string) : list nat :=
  match s with
  | EmptyString => match cur with Some n => [n] | None => [] end
  | String c s' =>
      if is_digit c
      then let v := match cur with Some n => n | None => 0 end in
           find_digit_runs (Some (10 * v + (code c - 48))) s'
      else match cur with
           | Some n => n :: find_digit_runs None s'
           | None => find_digit_runs None s'
           end
  end.

End PyStr.

Import PyStr.

(* ------------------------------------------------------------------ *)
(** ** Numbers: Python's [round], [min] and [max] on floats (as [Q]) *)

Module PyNum.

Local Open Scope Q_scope.

(** [round(x)] for a float: nearest integer, ties to the even one. *)
Definition py_round (x : Q) : Z :=
  let f := Qfloor x in
  let d := x - inject_Z f in
  match Qcompare d (1 # 2) with
  | Lt => f
  | Gt => (f + 1)%Z
  | Eq => if Z.even f then f else (f + 1)%Z
  end.

(** [min(xs)] / [max(xs)] of a non-empty list: the first extremal element. *)
Definition py_min (x : Q) (xs : list Q) : Q :=
  fold_left (fun m y => if Qlt_le_dec y m then y else m) xs x.
Definition py_max (x : Q) (xs : list Q) : Q :=
  fold_left (fun m y => if Qlt_le_dec m y then y else m) xs x.

End PyNum.

Import PyNum.

(* ------------------------------------------------------------------ *)
(** ** Calendar dates: [datetime.utcfromtimestamp(..).strftime("%Y-%m-%d")]
    and [date.fromisoformat] *)

Module Dates.

Local Open Scope Z_scope.

(** Proleptic Gregorian (year, month, day) of a day count since 1970-01-01. *)
Definition civil_from_days (z0 : Z) : Z * Z * Z :=
  let z := z0 + 719468 in
  let era := z / 146097 in
  let doe := z - era * 146097 in
  let yoe := (doe - doe / 1460 + doe / 36524 - doe / 146096) / 365 in
  let y := yoe + era * 400 in
  let doy := doe - (365 * yoe + yoe / 4 - yoe / 100) in
  let mp := (5 * doy + 2) / 153 in
  let d := doy - (153 * mp + 2) / 5 + 1 in
  let m := if mp <? 10 then mp + 3 else mp - 9 in
  (if m <=? 2 then y + 1 else y, m, d).

Definition pad (width : nat) (z : Z) : string :=
  let s := show_Z z in
  let fix zeros k := match k with O => EmptyString | S k' => String "0" (zeros k') end in
  zeros (width - String.length s)%nat ++ s.

Definition fmt_date (ymd : Z * Z * Z) : string :=
  let '(y, m, d) := ymd in pad 4 y ++ "-" ++ pad 2 m ++ "-" ++ pad 2 d.

(** [datetime.utcfromtimestamp(ts).strftime("%Y-%m-%d")] *)
Definition utc_date_of_timestamp (ts : Z) : string :=
  fmt_date (civil_from_days (ts / 86400)).

Definition is_leap (y : Z) : bool :=
  (Z.eqb (y mod 4) 0 && negb (Z.eqb (y mod 100) 0)) || Z.eqb (y mod 400) 0.

Definition days_in_month (y m : Z) : Z :=
  if (m =? 2) then (if is_leap y then 29 else 28)
  else if (m =? 4) || (m =? 6) || (m =? 9) || (m =? 11) then 30 else 31.

Definition digit_val (c : ascii) : option Z :=
  if is_digit c then Some (Z.of_nat (code c - 48)) else None.

Definition digits_val (l : list ascii) : option Z :=
  match l with
  | [] => Some 0
  | _ => let fix go acc l := match l with
                             | [] => Some acc
                             | c :: l' => match digit_val c with
                                          | Some v => go (10 * acc + v) l'
                                          | None => None
                                          end
                             end in go 0 l
  end.

(** [date.fromisoformat(s)] on the calendar form [YYYY-MM-DD]; [None] is the
    [ValueError] it raises on anything else. *)
Definition fromisoformat (s : string) : option (Z * Z * Z) :=
  match list_ascii_of_string s with
  | [y1; y2; y3; y4; "-"%char; m1; m2; "-"%char; d1; d2] =>
      match digits_val [y1; y2; y3; y4], digits_val [m1; m2], digits_val [d1; d2] with
      | Some y, Some m, Some d =>
          if (1 <=? y) && (1 <=? m) && (m <=? 12) && (1 <=? d) && (d <=? days_in_month y m)
          then Some (y, m, d) else None
      | _, _, _ => None
      end
  | _ => None
  end.

(** [d1 >= d2] on [datetime.date] *)
Definition date_geb (a b : Z * Z * Z) : bool :=
  let '(y1, m1, d1) := a in
  let '(y2, m2, d2) := b in
  (y2 <? y1) || ((y1 =? y2) && ((m2 <? m1) || ((m1 =? m2) && (d2 <=? d1)))).

End Dates.

Import Dates.

(* ------------------------------------------------------------------ *)
(** ** The outside world: exceptions, HTTP replies and the environment *)

(** The Python exceptions the gateway code can let escape. *)
Inductive exn :=
| HTTPError (status : Z)        (** [requests.HTTPError] from [raise_for_status] *)
| ConnectionError               (** any [requests] transport failure or timeout *)
| JSONDecodeError               (** [r.json()] on a body that is not JSON *)
| ValueError.                   (** [date.fromisoformat] on a malformed date *)

Inductive result (A : Type) :=
| Ok (a : A)
| Raise (e : exn).
Arguments Ok {A} a.
Arguments Raise {A} e.

Definition bind {A B} (m : result A) (k : A -> result B) : result B :=
  match m with Ok a => k a | Raise e => Raise e end.

Notation "x <- m ;; k" := (bind m (fun x => k)) (at level 61, m at next level, right associativity).

(** What [requests.get(..., timeout=10)] yields: a transport failure (raised),
    or a reply with a status code and a body; a body of [None] does not parse
    as JSON. *)
Inductive response (P : Type) :=
| Transport_failure
| Reply (status : Z) (body : option P).
Arguments Transport_failure {P}.
Arguments Reply {P} status body.

(** One entry of the One Call 3.0 ["daily"] array. *)
Record oc_day := {
  oc_dt : Z;               (** ["dt"], Unix UTC seconds *)
  oc_tmin : option Q;      (** ["temp"]["min"] *)
  oc_tmax : option Q;      (** ["temp"]["max"] *)
  oc_pop : option Q        (** ["pop"], 0..1 *)
}.

(** One entry of the 5 day / 3 hour ["list"] array. *)
Record fc_item := {
  dt_txt : option string;  (** ["dt_txt"], 'YYYY-MM-DD HH:MM:SS' *)
  f_temp : option Q;       (** ["main"]["temp"] *)
  f_temp_min : option Q;   (** ["main"]["temp_min"] *)
  f_temp_max : option Q;   (** ["main"]["temp_max"] *)
  f_pop : option Q         (** ["pop"]; absent means 0 *)
}.

(** What the Hugging Face client does with one prompt. *)
Inductive hf_outcome :=
| HF_raises
| HF_text (t : string).

(** The environment of one invocation. *)
Record Env := {
  OPENWEATHER_API_KEY : string;
  hf_client : option (string -> hf_outcome);  (** [_hf_client], [None] without a token *)
  random_pick : nat;                           (** the index [random.choice] draws *)
  geo_api : string -> response (list (Q * Q));           (** geo/1.0/direct, by ["q"] *)
  onecall_api : Q -> Q -> response (list oc_day);        (** data/3.0/onecall ["daily"] *)
  forecast_api : Q -> Q -> response (list fc_item)       (** data/2.5/forecast ["list"] *)
}.

(** A DailyWeather dictionary. *)
Record weather := {
  w_date : string;
  t_min : option Q;
  t_max : option Q;
  precip_prob : Z
}.

Definition truthy_str (s : option string) : bool :=
  match s with Some (String _ _) => true | _ => false end.

Definition truthy_nat (n : option nat) : bool :=
  match n with Some (S _) => true | _ => false end.

(* ------------------------------------------------------------------ *)
(** ** [agents/itinerary_agent.py]: the External Data Gateway *)

Module Gateway.

Definition FUN_FACTS_goa : list string := [
  "Goa was under Portuguese rule for more than four centuries until 1961.";
  "The Basilica of Bom Jesus in Old Goa is a UNESCO World Heritage Site.";
  "Goa’s coastline spans about 100 km with beaches like Baga and Calangute."].

(** [_FUN_FACTS.get(key)] *)
Definition FUN_FACTS (key : string) : option (list string) :=
  if String.eqb key "goa" then Some FUN_FACTS_goa else None.

(** [random.choice(xs)] for a non-empty [xs], drawing from the environment. *)
Definition random_choice (env : Env) (xs : list string) : string :=
  nth (random_pick env mod List.length xs) xs EmptyString.

Definition fun_fact_fallback (env : Env) (place : string) : string :=
  let key := py_lower (py_strip place) in
  match FUN_FACTS key with
  | Some facts => random_choice env facts
  | None => py_title place ++ " has a rich culture and popular local spots worth exploring."
  end.

Definition fun_fact (env : Env) (place : string) : result string :=
  match hf_client env with
  | Some client =>
      let prompt := "Give one short, accurate fun fact about " ++ place ++ " for travelers. "
                    ++ "One sentence only, no emojis." in
      match client prompt with
      | HF_text text =>
          if negb (String.eqb (py_strip text) EmptyString) then Ok (py_strip text)
          else Ok (fun_fact_fallback env place)
      | HF_raises => Ok (fun_fact_fallback env place)     (** [except Exception: pass] *)
      end
  | None => Ok (fun_fact_fallback env place)
  end.

Definition geocode (env : Env) (place : string) : result (option (Q * Q)) :=
  if String.eqb (OPENWEATHER_API_KEY env) EmptyString then Ok None else
  match geo_api env place with
  | Transport_failure => Raise ConnectionError
  | Reply status body =>
      if negb (Z.eqb status 200) then Ok None else
      match body with
      | None => Raise JSONDecodeError
      | Some [] => Ok None
      | Some (top :: _) => Ok (Some top)
      end
  end.

Definition oc_entry (d : oc_day) : weather := {|
  w_date := utc_date_of_timestamp (oc_dt d);
  t_min := oc_tmin d;
  t_max := oc_tmax d;
  precip_prob := py_round (match oc_pop d with Some p => p | None => 0 end * 100)%Q
|}.

Definition onecall_daily (env : Env) (lat lon : Q) (days : nat) : result (option (list weather)) :=
  match onecall_api env lat lon with
  | Transport_failure => Raise ConnectionError
  | Reply status body =>
      if negb (Z.eqb status 200) then Ok None else
      match body with
      | None => Raise JSONDecodeError
      | Some daily =>
          let out := map oc_entry (firstn days daily) in
          match out with [] => Ok None | _ => Ok (Some (firstn days out)) end
      end
  end.

(** The per-day accumulator of [_forecast5_aggregate]. *)
Record bucket := { temps : list Q; mins : list Q; maxs : list Q; pops : list Q }.

Definition empty_bucket : bucket := {| temps := []; mins := []; maxs := []; pops := [] |}.

Definition opt_list {A} (o : option A) : list A := match o with Some x => [x] | None => [] end.

(** The four appends of one entry to its bucket. *)
Definition bucket_push (it : fc_item) (b : bucket) : bucket := {|
  temps := temps b ++ opt_list (f_temp it);
  mins := mins b ++ opt_list (f_temp_min it);
  maxs := maxs b ++ opt_list (f_temp_max it);
  pops := pops b ++ [match f_pop it with Some p => p | None => 0%Q end]
|}.

(** [by_day.setdefault(k, empty)] followed by an update of that bucket, on an
    insertion-ordered dictionary. *)
Fixpoint setdefault_update (k : string) (f : bucket -> bucket) (d : list (string * bucket))
  : list (string * bucket) :=
  match d with
  | [] => [(k, f empty_bucket)]
  | (k', b) :: d' => if String.eqb k k' then (k', f b) :: d' else (k', b) :: setdefault_update k f d'
  end.

(** [dt_txt.split(" ")[0]] *)
Definition day_key (txt : string) : string :=
  match py_split " " txt with k :: _ => k | [] => EmptyString end.

(** The key an entry is grouped under, [None] when [if not dt_txt: continue]. *)
Definition item_key (it : fc_item) : option string :=
  match dt_txt it with
  | Some ((String _ _) as txt) => Some (day_key txt)
  | _ => None
  end.

Definition by_day_step (d : list (string * bucket)) (it : fc_item) : list (string * bucket) :=
  match item_key it with
  | Some k => setdefault_update k (bucket_push it) d
  | None => d
  end.

Definition group_by_day (items : list fc_item) : list (string * bucket) :=
  fold_left by_day_step items [].

Fixpoint lookup (k : string) (d : list (string * bucket)) : option bucket :=
  match d with
  | [] => None
  | (k', b) :: d' => if String.eqb k k' then Some b else lookup k d'
  end.

(** Python's [<] on [str]: lexicographic on code points. *)
Fixpoint str_ltb (a b : string) : bool :=
  match a, b with
  | EmptyString, String _ _ => true
  | String _ _, EmptyString => false
  | EmptyString, EmptyString => false
  | String c a', String d b' =>
      if (code c <? code d)%nat then true
      else if (code d <? code c)%nat then false
      else str_ltb a' b'
  end.

Fixpoint insert_sorted (x : string) (l : list string) : list string :=
  match l with
  | [] => [x]
  | y :: l' => if str_ltb x y then x :: l else y :: insert_sorted x l'
  end.

(** [sorted(keys)] *)
Definition sorted_strings (l : list string) : list string := fold_right insert_sorted [] l.

Definition py_min_opt (l : list Q) : option Q :=
  match l with x :: xs => Some (py_min x xs) | [] => None end.
Definition py_max_opt (l : list Q) : option Q :=
  match l with x :: xs => Some (py_max x xs) | [] => None end.

(** The summary of one day's bucket. *)
Definition day_summary (day : string) (b : bucket) : weather := {|
  w_date := day;
  t_min := match py_min_opt (mins b) with Some m => Some m | None => py_min_opt (temps b) end;
  t_max := match py_max_opt (maxs b) with Some m => Some m | None => py_max_opt (temps b) end;
  precip_prob := match pops b with x :: xs => py_round (py_max x xs * 100)%Q | [] => 0%Z end
|}.

Definition aggregate (days : nat) (items : list fc_item) : list weather :=
  let by_day := group_by_day items in
  let out := map (fun day => day_summary day (match lookup day by_day with
                                               | Some b => b | None => empty_bucket end))
                 (firstn days (sorted_strings (map fst by_day))) in
  firstn days out.

Definition forecast5_aggregate (env : Env) (lat lon : Q) (days : nat) : result (list weather) :=
  match forecast_api env lat lon with
  | Transport_failure => Raise ConnectionError
  | Reply status body =>
      (* r.raise_for_status() *)
      if (400 <=? status)%Z && (status <? 600)%Z then Raise (HTTPError status) else
      match body with
      | None => Raise JSONDecodeError
      | Some items => Ok (aggregate days items)
      end
  end.

(** [next((i for i, d in enumerate(ws) if fromisoformat(d["date"]) >= sd), 0)] *)
Fixpoint first_on_or_after (i : nat) (sd : Z * Z * Z) (ws : list weather) : result nat :=
  match ws with
  | [] => Ok 0
  | w :: ws' =>
      match fromisoformat (w_date w) with
      | None => Raise ValueError
      | Some d => if date_geb d sd then Ok i else first_on_or_after (S i) sd ws'
      end
  end.

(** The [if start_date: ...] slicing shared by both branches of [daily_weather]. *)
Definition slice_from (start_date : option string) (days : nat) (ws : list weather)
  : result (list weather) :=
  match start_date with
  | Some sds =>
      if truthy_str start_date then
        match fromisoformat sds with
        | None => Raise ValueError
        | Some sd => idx <- first_on_or_after 0 sd ws ;; Ok (firstn days (skipn idx ws))
        end
      else Ok ws
  | None => Ok ws
  end.

Definition daily_weather (env : Env) (lat lon : Q) (days : nat) (start_date : option string)
  : result (list weather) :=
  if String.eqb (OPENWEATHER_API_KEY env) EmptyString then Ok [] else
  oc <- onecall_daily env lat lon days ;;
  match oc with
  | Some ((_ :: _) as l) => slice_from start_date days l
  | _ => forecast5 <- forecast5_aggregate env lat lon days ;; slice_from start_date days forecast5
  end.

End Gateway.

Import Gateway.

(* ------------------------------------------------------------------ *)
(** ** [agents/itinerary_agent.py]: the Itinerary Composer *)

Module Composer.

(** [_ACTIVITY_MAP.get(p, [])] *)
Definition ACTIVITY_MAP (p : string) : list string :=
  if String.eqb p "nightlife" then ["evening at a popular club area"; "sunset beach shacks"; "live music venue"]
  else if String.eqb p "food" then ["local seafood lunch"; "street food crawl"; "heritage café tasting"]
  else if String.eqb p "shopping" then ["local market for handicrafts"; "flea market visit"; "souvenir boutiques"]
  else if String.eqb p "historical places" then ["old town walking tour"; "heritage church/fort visit"; "museum hour"]
  else if String.eqb p "natural places" then ["beach and coastline walk"; "nature trail / waterfall"; "sunrise viewpoint"]
  else if String.eqb p "street life" then ["promenade stroll"; "photo walk"; "local square hangout"]
  else if String.eqb p "famous places" then ["top landmarks circuit"; "iconic photo spots"; "must-see square/fort"]
  else [].

Definition DEFAULT_POOL : list string :=
  ["city highlights tour"; "local food tasting"; "market visit"; "sunset viewpoint"].

Definition activity_pool (preferences : list string) : list string :=
  let prefs := map py_lower preferences in
  let pool := flat_map ACTIVITY_MAP prefs in
  match pool with [] => DEFAULT_POOL | _ => pool end.

(** The [tip] of day [i]: [w = weather[i] if i < len(weather) else None]. *)
Definition tip (weather_list : list weather) (i : nat) : string :=
  match nth_error weather_list i with
  | Some w =>
      match t_min w, t_max w with
      | Some lo, Some hi =>
          let avg := py_round ((lo + hi) / 2)%Q in
          "weather is ~" ++ show_Z avg ++ "°C with rain chance " ++ show_Z (precip_prob w) ++ "%"
      | _, _ => "weather details unavailable"
      end
  | None => "weather details unavailable"
  end.

Definition day_line (destination : string) (pool : list string) (weather_list : list weather)
  (i : nat) : string :=
  let slot := nth (i mod List.length pool) pool EmptyString in
  "Day " ++ show_nat (i + 1) ++ ": " ++ slot ++ " in " ++ py_title destination ++ " — "
  ++ tip weather_list i ++ ".".

(** [plan[-1] += suffix] when [plan] is non-empty. *)
Definition append_to_last (suffix : string) (plan : list string) : list string :=
  match rev plan with
  | [] => []
  | last :: before => rev before ++ [last ++ suffix]
  end.

Definition build_itinerary (destination : string) (days people : nat)
  (preferences : list string) (weather_list : list weather) : list string :=
  let pool := activity_pool preferences in
  let plan := map (day_line destination pool weather_list) (seq 0 days) in
  append_to_last (" Departure planning for " ++ show_nat people ++ " traveler(s).") plan.

Definition plan_trip (env : Env) (destination : string) (days people : nat)
  (preferences : list string) (start_date : option string) : result (string * list string) :=
  fact <- fun_fact env destination ;;
  coords <- geocode env destination ;;
  weather_list <- match coords with
                  | Some (lat, lon) => daily_weather env lat lon days start_date
                  | None => Ok []
                  end ;;
  let itinerary := build_itinerary destination days people preferences weather_list in
  let opening := "Wow, " ++ py_title destination ++ " is a nice place — fun fact: " ++ fact in
  Ok (opening, itinerary).

End Composer.

Import Composer.

(* ------------------------------------------------------------------ *)
(** ** [graph/travel_graph.py]: the Dialog State Machine *)

Module Dialog.

Inductive msg :=
| Human (content : string)
| AI (content : string).

(** The ["ui"] dictionary: [{}] or the preference checkbox directive. *)
Inductive ui_hint :=
| UiEmpty
| UiPreferences (options : list string).

Definition PREFERENCE_OPTIONS : list string :=
  ["nightlife"; "food"; "shopping"; "historical places"; "natural places"; "street life";
   "famous places"].

Definition PREFERENCE_HINT : ui_hint := UiPreferences PREFERENCE_OPTIONS.

(** [TravelState]; an absent key reads as [None] ([UiEmpty], [[]]). *)
Record TravelState := {
  messages : list msg;
  input_text : option string;
  ui : ui_hint;
  name : option string;
  destination : option string;
  days : option nat;
  people : option nat;
  start_date : option string;
  preferences : list string;
  itinerary : list string
}.

(** The partial dictionary [travel_node] returns: [Some v] for a key it sets. *)
Record Update := {
  u_messages : list msg;
  u_ui : option ui_hint;
  u_name : option string;
  u_destination : option string;
  u_days : option nat;
  u_people : option nat;
  u_start_date : option string;
  u_preferences : option (list string);
  u_itinerary : option (list string)
}.

Definition reply (msgs : list msg) (text : string) : Update := {|
  u_messages := msgs ++ [AI text]; u_ui := None; u_name := None; u_destination := None;
  u_days := None; u_people := None; u_start_date := None; u_preferences := None;
  u_itinerary := None |}.

(** [_extract_numbers] *)
Definition extract_numbers (text : string) : list nat := find_digit_runs None text.

(** The comprehension of stage 5. *)
Definition parse_preferences (user_text : string) : list string :=
  match user_text with
  | EmptyString => []
  | _ => map (fun x => py_lower (py_strip x))
             (filter (fun x => negb (String.eqb (py_strip x) EmptyString)) (py_split "," user_text))
  end.

(** Stage 3 before its final check: the [days] and [people] after extraction. *)
Definition extract_days_people (user_text : string) (days0 people0 : option nat)
  : option nat * option nat :=
  match user_text with
  | EmptyString => (days0, people0)
  | _ =>
      match extract_numbers user_text with
      | n0 :: n1 :: _ => (Some n0, Some n1)
      | [n0] => if negb (truthy_nat days0) then (Some n0, people0)
                else if negb (truthy_nat people0) then (days0, Some n0)
                else (days0, people0)
      | [] => (days0, people0)
      end
  end.

Definition LENGTH_REPROMPT : string :=
  "Please specify trip length and group size, e.g., '5 days and 2 people'.".

Definition PREFERENCES_REPROMPT : string := "Please select your preferences using the checkboxes.".

Definition travel_node (env : Env) (state : TravelState) : result Update :=
  let msgs := messages state in
  let user_text := py_strip (match input_text state with Some t => t | None => EmptyString end) in
  (* 1) Name *)
  match name state with
  | None | Some EmptyString =>
      match user_text with
      | EmptyString => Ok (reply msgs "Hi, please state your name.")
      | _ => let nm := py_title user_text in
             let u := reply msgs ("Hi " ++ nm ++ ", where are you planning to go on a trip?") in
             Ok {| u_messages := u_messages u; u_ui := None; u_name := Some nm;
                   u_destination := None; u_days := None; u_people := None;
                   u_start_date := None; u_preferences := None; u_itinerary := None |}
      end
  | Some _ =>
  (* 2) Destination *)
  match destination state with
  | None | Some EmptyString =>
      match user_text with
      | EmptyString => Ok (reply msgs "Please tell the destination city or place.")
      | _ => let dest := py_title (py_strip user_text) in
             let opening := "Wow, " ++ dest ++ " is a nice place." in
             let u := reply msgs (opening ++ " How many days and people are going on the trip?") in
             Ok {| u_messages := u_messages u; u_ui := None; u_name := None;
                   u_destination := Some dest; u_days := None; u_people := None;
                   u_start_date := None; u_preferences := None; u_itinerary := None |}
      end
  | Some dest =>
  (* 3) Days & People *)
  match days state, people state with
  | Some ((S _) as d), Some ((S _) as p) =>
  (* 4) Start Date *)
  match start_date state with
  | None | Some EmptyString =>
      match user_text with
      | EmptyString => Ok (reply msgs "Please provide the trip start date in YYYY-MM-DD format.")
      | _ => let u := reply msgs "One last thing—select preferences from the checkboxes, then send." in
             Ok {| u_messages := u_messages u; u_ui := Some PREFERENCE_HINT; u_name := None;
                   u_destination := None; u_days := None; u_people := None;
                   u_start_date := Some (py_strip user_text); u_preferences := None;
                   u_itinerary := None |}
      end
  | Some sd =>
  (* 5) Preferences *)
  let prefs_or_reprompt :=
    match preferences state with
    | [] => match parse_preferences user_text with
            | [] => inr tt
            | chosen => inl chosen
            end
    | prefs => inl prefs
    end in
  match prefs_or_reprompt with
  | inr _ =>
      let u := reply msgs PREFERENCES_REPROMPT in
      Ok {| u_messages := u_messages u; u_ui := Some PREFERENCE_HINT; u_name := None;
            u_destination := None; u_days := None; u_people := None; u_start_date := None;
            u_preferences := None; u_itinerary := None |}
  | inl prefs =>
  (* 6) Plan itinerary *)
      plan <- plan_trip env dest d p prefs (Some sd) ;;
      let '(opening, itin) := plan in
      let text := py_join "
" (["That's great—planning your itinerary now."; opening] ++ itin) in
      Ok {| u_messages := msgs ++ [AI text]; u_ui := Some UiEmpty; u_name := None;
            u_destination := None; u_days := None; u_people := None; u_start_date := None;
            u_preferences := Some prefs; u_itinerary := Some itin |}
  end
  end
  | d0, p0 =>
      let '(d1, p1) := extract_days_people user_text d0 p0 in
      match d1, p1 with
      | Some ((S _) as d), Some ((S _) as p) =>
          let u := reply msgs "Great. What is the trip start date? Please provide in YYYY-MM-DD format." in
          Ok {| u_messages := u_messages u; u_ui := None; u_name := None;
                u_destination := None; u_days := Some d; u_people := Some p;
                u_start_date := None; u_preferences := None; u_itinerary := None |}
      | _, _ => Ok (reply msgs LENGTH_REPROMPT)
      end
  end
  end
  end.

Definition upd {A} (new : option A) (old : A) : A := match new with Some v => v | None => old end.

(** How the compiled graph folds the node's dictionary into the state: the
    ["messages"] channel is declared [Annotated[List, operator.add]], so the
    returned list is added to the stored one; every other returned key
    overwrites its channel. *)
Definition apply_update (s : TravelState) (u : Update) : TravelState := {|
  messages := messages s ++ u_messages u;
  input_text := input_text s;
  ui := upd (u_ui u) (ui s);
  name := upd (option_map Some (u_name u)) (name s);
  destination := upd (option_map Some (u_destination u)) (destination s);
  days := upd (option_map Some (u_days u)) (days s);
  people := upd (option_map Some (u_people u)) (people s);
  start_date := upd (option_map Some (u_start_date u)) (start_date s);
  preferences := upd (u_preferences u) (preferences s);
  itinerary := upd (u_itinerary u) (itinerary s)
|}.

(** [graph.invoke(state)]: one run of [travel_node] on the state. *)
Definition advance (env : Env) (s : TravelState) : result TravelState :=
  u <- travel_node env s ;; Ok (apply_update s u).

(** The session record [server.py] creates on first contact. *)
Definition initial_session : TravelState := {|
  messages := []; input_text := Some EmptyString; ui := UiEmpty; name := None;
  destination := None; days := None; people := None; start_date := None;
  preferences := []; itinerary := [] |}.

(** One [/chat] request without a [preferences] field: the human turn is
    appended and becomes [input_text], then the graph runs once. *)
Definition chat (env : Env) (s : TravelState) (message : string) : result TravelState :=
  advance env {| messages := messages s ++ [Human message]; input_text := Some message;
                 ui := ui s; name := name s; destination := destination s; days := days s;
                 people := people s; start_date := start_date s; preferences := preferences s;
                 itinerary := itinerary s |}.

(** A session: the requests in order, each with the environment it meets. *)
Fixpoint run_session (s : TravelState) (turns : list (Env * string)) : result TravelState :=
  match turns with
  | [] => Ok s
  | (env, m) :: rest => s' <- chat env s m ;; run_session s' rest
  end.

End Dialog.

Import Dialog.

(* ------------------------------------------------------------------ *)
(** ** [server.py]: the [/chat] endpoint and its in-memory sessions *)

Module Server.

(** The request body [ChatIn]. *)
Record ChatIn := {
  session_id : string;
  message : string;
  body_preferences : option (list string)
}.

(** [_SESSIONS]: an insertion-ordered dictionary from session id to state. *)
Definition Sessions := list (string * TravelState).

Fixpoint sess_get (sid : string) (db : Sessions) : option TravelState :=
  match db with
  | [] => None
  | (k, st) :: db' => if String.eqb sid k then Some st else sess_get sid db'
  end.

(** [_SESSIONS[sid] = st]: replaces the value in place, or appends the key. *)
Fixpoint sess_set (sid : string) (st : TravelState) (db : Sessions) : Sessions :=
  match db with
  | [] => [(sid, st)]
  | (k, st') :: db' => if String.eqb sid k then (k, st) :: db' else (k, st') :: sess_set sid st db'
  end.

(** The loop over [reversed(result["messages"])] for the latest AI entry. *)
Fixpoint latest_ai_rev (ms : list msg) : string :=
  match ms with
  | [] => EmptyString
  | AI c :: _ => c
  | Human _ :: ms' => latest_ai_rev ms'
  end.

Definition latest_ai (ms : list msg) : string := latest_ai_rev (rev ms).

(** What the endpoint answers: the JSON reply, or the exception that
    escapes [graph.invoke] (FastAPI turns it into a 500 response). *)
Inductive http_reply :=
| JSONReply (reply : string) (ui : ui_hint)
| ServerError (e : exn).

(** [p.strip().lower()] *)
Definition clean_preference (p : string) : string := py_lower (py_strip p).

(** [if body.preferences: session["preferences"] = [p.strip().lower() for p in ...]] *)
Definition merge_preferences (ps : option (list string)) (st : TravelState) : TravelState :=
  match ps with
  | Some ((_ :: _) as l) =>
      {| messages := messages st; input_text := input_text st; ui := ui st; name := name st;
         destination := destination st; days := days st; people := people st;
         start_date := start_date st; preferences := map clean_preference l;
         itinerary := itinerary st |}
  | _ => st
  end.

(** [session["messages"].append(...)] and [session["input_text"] = body.message or ""] *)
Definition add_human (m : string) (st : TravelState) : TravelState :=
  {| messages := messages st ++ [Human m]; input_text := Some m; ui := ui st; name := name st;
     destination := destination st; days := days st; people := people st;
     start_date := start_date st; preferences := preferences st; itinerary := itinerary st |}.

(** One [POST /chat]. [_SESSIONS.setdefault] stores the session dictionary
    itself, so the in-place merge and append are already in [_SESSIONS]
    when [graph.invoke] runs; [_SESSIONS[sid] = result] only follows a
    successful invocation. *)
Definition server_chat (env : Env) (db : Sessions) (body : ChatIn) : Sessions * http_reply :=
  let sid := session_id body in
  let session0 := match sess_get sid db with Some st => st | None => initial_session end in
  let session := add_human (message body) (merge_preferences (body_preferences body) session0) in
  let db1 := sess_set sid session db in
  match advance env session with
  | Ok result => (sess_set sid result db1, JSONReply (latest_ai (messages result)) (ui result))
  | Raise e => (db1, ServerError e)
  end.

End Server.

Import Server.

(* ------------------------------------------------------------------ *)
(** ** The spec's wording, for comparison with the code *)

Module SpecText.

(** The weather clause of day [i] as the spec describes it: the rounded
    average of min and max with the rain chance when both exist, the literal
    "weather details unavailable" otherwise. *)
Definition spec_weather_clause (ws : list weather) (i : nat) : string :=
  match nth_error ws i with
  | Some w =>
      match t_min w, t_max w with
      | Some lo, Some hi =>
          "weather is ~" ++ show_Z (py_round ((lo + hi) / 2)%Q) ++ "°C with rain chance "
          ++ show_Z (precip_prob w) ++ "%"
      | _, _ => "weather details unavailable"
      end
  | None => "weather details unavailable"
  end.

(** ["Day {i+1}: {activity} in {Destination, title-cased} — {weather clause}."] *)
Definition spec_line (destination activity clause : string) (i : nat) : string :=
  "Day " ++ show_nat (i + 1) ++ ": " ++ activity ++ " in " ++ py_title destination ++ " — "
  ++ clause ++ ".".

Definition spec_departure (group_size : nat) : string :=
  " Departure planning for " ++ show_nat group_size ++ " traveler(s).".

(** The activity pool: each recognised preference's list, in order, or the
    default pool when that is empty. *)
Definition spec_pool (prefs : list string) : list string :=
  match flat_map (fun p => ACTIVITY_MAP (py_lower p)) prefs with
  | [] => DEFAULT_POOL
  | pool => pool
  end.

(** Stage 5 as the spec describes it: split on commas, trim and lower-case
    every token, drop the tokens that are empty after trimming. *)
Definition spec_parse_preferences (user_text : string) : list string :=
  map (fun x => py_lower (py_strip x))
      (filter (fun x => negb (String.eqb (py_strip x) EmptyString)) (py_split "," user_text)).

Definition is_set {A} (o : option A) : bool := match o with Some _ => true | None => false end.

(** An invocation "does not advance" when the dictionary it returns sets no
    slot key. *)
Definition resolves_no_slot (u : Update) : bool :=
  negb (is_set (u_name u) || is_set (u_destination u) || is_set (u_days u)
        || is_set (u_people u) || is_set (u_start_date u) || is_set (u_preferences u)
        || is_set (u_itinerary u)).

(** Whether an invocation on [s] gets past every guard of [travel_node] to
    the itinerary stage, the only stage that calls the gateway. *)
Definition reaches_itinerary_stage (s : TravelState) : bool :=
  truthy_str (name s) && truthy_str (destination s) && truthy_nat (days s)
  && truthy_nat (people s) && truthy_str (start_date s)
  && match preferences s with
     | [] => match parse_preferences
                     (py_strip (match input_text s with Some t => t | None => EmptyString end)) with
             | [] => false
             | _ => true
             end
     | _ => true
     end.

(** The fine-grained entries that fall on calendar day [day]. *)
Definition day_entries (day : string) (items : list fc_item) : list fc_item :=
  filter (fun it => match item_key it with Some k => String.eqb k day | None => false end) items.

Definition entry_mins (es : list fc_item) : list Q := flat_map (fun it => opt_list (f_temp_min it)) es.
Definition entry_maxs (es : list fc_item) : list Q := flat_map (fun it => opt_list (f_temp_max it)) es.
Definition entry_temps (es : list fc_item) : list Q := flat_map (fun it => opt_list (f_temp it)) es.
Definition entry_pops (es : list fc_item) : list Q :=
  map (fun it => match f_pop it with Some p => p | None => 0%Q end) es.

(** The slot-order invariant: each slot is resolved only when all the
    earlier ones are; length and size are resolved together; preferences and
    itinerary are resolved together. *)
Definition slots_in_order (s : TravelState) : Prop :=
  (truthy_str (destination s) = true -> truthy_str (name s) = true) /\
  ((days s = None /\ people s = None) \/
   (exists d p, days s = Some (S d) /\ people s = Some (S p) /\
                truthy_str (destination s) = true)) /\
  (truthy_str (start_date s) = true -> days s <> None) /\
  (preferences s <> [] -> truthy_str (start_date s) = true) /\
  (preferences s = [] <-> itinerary s = []).

Definition all_resolved (s : TravelState) : Prop :=
  truthy_str (name s) = true /\ truthy_str (destination s) = true /\
  truthy_nat (days s) = true /\ truthy_nat (people s) = true /\
  truthy_str (start_date s) = true /\ preferences s <> [].

(** Every slot resolved in [s1] holds the same value in [s2]. *)
Definition slots_kept (s1 s2 : TravelState) : Prop :=
  (truthy_str (name s1) = true -> name s2 = name s1) /\
  (truthy_str (destination s1) = true -> destination s2 = destination s1) /\
  (truthy_nat (days s1) = true -> days s2 = days s1) /\
  (truthy_nat (people s1) = true -> people s2 = people s1) /\
  (truthy_str (start_date s1) = true -> start_date s2 = start_date s1) /\
  (preferences s1 <> [] -> preferences s2 = preferences s1).

End SpecText.

Import SpecText.

(* ------------------------------------------------------------------ *)
(** ** Predicates and decidable checks used by the lemmas *)

Module Helpers.

(** A provider's probability of precipitation is valid when it lies in
    [0, 1]; an absent one is read as 0 by the code. *)
Definition pop_ok (p : option Q) : Prop :=
  match p with Some p => (0 <= p <= 1)%Q | None => True end.

(** [a < b] on [str], as a relation. *)
Definition str_lt (a b : string) : Prop := str_ltb a b = true.

(** A text with no decimal digit. *)
Fixpoint no_digit (s : string) : bool :=
  match s with
  | EmptyString => true
  | String c s' => negb (is_digit c) && no_digit s'
  end.

(** ["c" in s] *)
Fixpoint has_char (c : ascii) (s : string) : bool :=
  match s with
  | EmptyString => false
  | String d s' => Ascii.eqb d c || has_char c s'
  end.

(** A summary dated before / on or after the start date [sd]. *)
Definition dated_before (sd : Z * Z * Z) (w : weather) : Prop :=
  exists d, fromisoformat (w_date w) = Some d /\ date_geb d sd = false.
Definition dated_on_or_after (sd : Z * Z * Z) (w : weather) : Prop :=
  exists d, fromisoformat (w_date w) = Some d /\ date_geb d sd = true.

Section CalendarChecks.
Local Open Scope Z_scope.

(** [civil_from_days] within one 400-year era, from the day of the era. *)
Definition civil_of_doe (doe : Z) : Z * Z * Z :=
  let yoe := (doe - doe / 1460 + doe / 36524 - doe / 146096) / 365 in
  let doy := doe - (365 * yoe + yoe / 4 - yoe / 100) in
  let mp := (5 * doy + 2) / 153 in
  let d := doy - (153 * mp + 2) / 5 + 1 in
  let m := if mp <? 10 then mp + 3 else mp - 9 in
  (if m <=? 2 then yoe + 1 else yoe, m, d).

Definition valid_date (ymd : Z * Z * Z) : bool :=
  let '(y, m, d) := ymd in (1 <=? m) && (m <=? 12) && (1 <=? d) && (d <=? days_in_month y m).

(** [all(p(z) for z in range(z0, z0 + k))] *)
Fixpoint all_from (p : Z -> bool) (k : nat) (z0 : Z) : bool :=
  match k with O => true | S k' => p z0 && all_from p k' (z0 + 1) end.

(** [pad w v] reads back as [v] with [w] digits. *)
Definition pad_reads_back (w : nat) (v : Z) : bool :=
  let l := list_ascii_of_string (pad w v) in
  Nat.eqb (List.length l) w &&
  match digits_val l with Some v' => Z.eqb v' v | None => false end.

(** The year [datetime.utcfromtimestamp] gives for a Unix time. *)
Definition utc_year (ts : Z) : Z := fst (fst (civil_from_days (ts / 86400))).

End CalendarChecks.

End Helpers.

Import Helpers.

(* ------------------------------------------------------------------ *)
(** ** Sample environments and states *)

Module Samples.

(** No credentials configured: no generative facts and no weather. *)
Definition offline_env : Env := {|
  OPENWEATHER_API_KEY := EmptyString; hf_client := None; random_pick := 0;
  geo_api := fun _ => Transport_failure; onecall_api := fun _ _ => Transport_failure;
  forecast_api := fun _ _ => Transport_failure |}.

(** A session that has collected name and destination, with [text] as input. *)
Definition at_length_stage (text : string) : TravelState := {|
  messages := [Human text]; input_text := Some text; ui := UiEmpty; name := Some "Alex";
  destination := Some "Goa"; days := None; people := None; start_date := None;
  preferences := []; itinerary := [] |}.

(** A session waiting for its preferences, with [text] as input and [hint] as ui. *)
Definition at_preferences_stage (hint : ui_hint) (text : string) : TravelState := {|
  messages := [Human text]; input_text := Some text; ui := hint; name := Some "Alex";
  destination := Some "Goa"; days := Some 5; people := Some 2; start_date := Some "2025-03-01";
  preferences := []; itinerary := [] |}.

(** [offline_env] whose [random.choice] draws index [k]. *)
Definition offline_env_pick (k : nat) : Env := {|
  OPENWEATHER_API_KEY := EmptyString; hf_client := None; random_pick := k;
  geo_api := fun _ => Transport_failure; onecall_api := fun _ _ => Transport_failure;
  forecast_api := fun _ _ => Transport_failure |}.

Definition goa_coords : list (Q * Q) := [((155 # 10)%Q, (738 # 10)%Q)].

(** Credentials set; geocoding works; One Call answers 401; the 3-hour
    endpoint answers 500. *)
Definition env_forecast_500 : Env := {|
  OPENWEATHER_API_KEY := "k"; hf_client := None; random_pick := 0;
  geo_api := fun _ => Reply 200 (Some goa_coords); onecall_api := fun _ _ => Reply 401 None;
  forecast_api := fun _ _ => Reply 500 None |}.

(** Credentials set; the geocoding request fails in transport. *)
Definition env_geo_down : Env := {|
  OPENWEATHER_API_KEY := "k"; hf_client := None; random_pick := 0;
  geo_api := fun _ => Transport_failure; onecall_api := fun _ _ => Reply 401 None;
  forecast_api := fun _ _ => Reply 200 (Some []) |}.

(** Credentials set; One Call answers 401; the 3-hour endpoint has no entries. *)
Definition env_forecast_empty : Env := {|
  OPENWEATHER_API_KEY := "k"; hf_client := None; random_pick := 0;
  geo_api := fun _ => Reply 200 (Some goa_coords); onecall_api := fun _ _ => Reply 401 None;
  forecast_api := fun _ _ => Reply 200 (Some []) |}.

(** Credentials set; geocoding answers 503, so no weather is fetched. *)
Definition env_geo_503 : Env := {|
  OPENWEATHER_API_KEY := "k"; hf_client := None; random_pick := 0;
  geo_api := fun _ => Reply 503 None; onecall_api := fun _ _ => Reply 401 None;
  forecast_api := fun _ _ => Reply 500 None |}.

Definition march_first_noon : oc_day := {|
  oc_dt := 1740830400; oc_tmin := Some 24%Q; oc_tmax := Some 32%Q; oc_pop := Some (1 # 10)%Q |}.

(** Credentials set; geocoding and One Call both answer. *)
Definition env_weather_up : Env := {|
  OPENWEATHER_API_KEY := "k"; hf_client := None; random_pick := 0;
  geo_api := fun _ => Reply 200 (Some goa_coords);
  onecall_api := fun _ _ => Reply 200 (Some [march_first_noon]);
  forecast_api := fun _ _ => Reply 500 None |}.

(** A session waiting for its preferences whose start date is [start]. *)
Definition at_preferences_stage_on (start text : string) : TravelState := {|
  messages := [Human text]; input_text := Some text; ui := PREFERENCE_HINT; name := Some "Alex";
  destination := Some "Goa"; days := Some 5; people := Some 2; start_date := Some start;
  preferences := []; itinerary := [] |}.

(** The spec's end-to-end scenario, every turn meeting [env]. *)
Definition scenario (env : Env) : list (Env * string) :=
  [(env, "Alex"); (env, "Goa"); (env, "5 days and 2 people"); (env, "2025-03-01");
   (env, "food,famous places")].


(** Three 3-hour entries over two calendar days. *)
Definition three_hour_items : list fc_item := [
  {| dt_txt := Some "2025-03-01 09:00:00"; f_temp := Some 26%Q; f_temp_min := Some 25%Q;
     f_temp_max := Some 27%Q; f_pop := Some (2 # 10)%Q |};
  {| dt_txt := Some "2025-03-01 12:00:00"; f_temp := Some 30%Q; f_temp_min := Some 29%Q;
     f_temp_max := Some 31%Q; f_pop := Some (6 # 10)%Q |};
  {| dt_txt := Some "2025-03-02 09:00:00"; f_temp := Some 24%Q; f_temp_min := Some 23%Q;
     f_temp_max := Some 28%Q; f_pop := None |}].

(** Credentials set; One Call answers 401; the 3-hour endpoint answers. *)
Definition env_forecast_3h : Env := {|
  OPENWEATHER_API_KEY := "k"; hf_client := None; random_pick := 0;
  geo_api := fun _ => Reply 200 (Some goa_coords); onecall_api := fun _ _ => Reply 401 None;
  forecast_api := fun _ _ => Reply 200 (Some three_hour_items) |}.

(** The scenario split after its second turn, followed by a closing remark. *)
Definition scenario_head : list (Env * string) := firstn 2 (scenario offline_env).
Definition scenario_tail : list (Env * string) :=
  (skipn 2 (scenario offline_env) ++ [(offline_env, "thanks")])%list.

Definition scenario_mid : TravelState := Eval vm_compute in
  match run_session initial_session scenario_head with Ok s => s | Raise _ => initial_session end.

Definition scenario_end : TravelState := Eval vm_compute in
  match run_session scenario_mid scenario_tail with Ok s => s | Raise _ => initial_session end.

(** A first request of session ["s1"], and one that sends preferences. *)
Definition hello_body : ChatIn := {| session_id := "s1"; message := "Alex"; body_preferences := None |}.
Definition food_body : ChatIn := {| session_id := "s1"; message := "food"; body_preferences := None |}.
Definition prefs_body : ChatIn :=
  {| session_id := "s1"; message := "go"; body_preferences := Some [" Food "; "Shopping"] |}.
Definition waiting_db : Sessions := [("s1", at_preferences_stage UiEmpty EmptyString)].

Definition scenario_final : TravelState := Eval vm_compute in
  match run_session initial_session (scenario offline_env) with Ok s => s | Raise _ => initial_session end.

End Samples.

Import Samples.

(* ------------------------------------------------------------------ *)
(** ** Facts about the Itinerary Composer *)

Section ComposerFacts.

Lemma append_to_last_snoc (suffix x : string) (l : list string) :
  append_to_last suffix (l ++ [x])%list = (l ++ [String.append x suffix])%list.
Proof.
  unfold append_to_last. rewrite rev_app_distr. simpl. rewrite rev_involutive. reflexivity.
Qed.

Lemma append_to_last_nth (suffix : string) (l : list string) (i : nat) :
  i < List.length l ->
  nth i (append_to_last suffix l) EmptyString =
  if Nat.eqb i (List.length l - 1) then nth i l EmptyString ++ suffix else nth i l EmptyString.
Proof.
  intros Hi.
  destruct (rev l) as [|x r] eqn:Hr.
  - apply (f_equal (@rev string)) in Hr. rewrite rev_involutive in Hr. subst l. simpl in Hi. lia.
  - assert (Hl : l = (rev r ++ [x])%list).
    { rewrite <- (rev_involutive l), Hr. reflexivity. }
    rewrite Hl in Hi. rewrite Hl, append_to_last_snoc.
    rewrite length_app in Hi |- *. simpl in Hi |- *.
    destruct (Nat.eqb_spec i (List.length (rev r) + 1 - 1)) as [Heq | Hne].
    + replace i with (List.length (rev r)) by lia.
      rewrite !app_nth2 by lia. rewrite Nat.sub_diag. reflexivity.
    + rewrite !app_nth1 by lia. reflexivity.
Qed.

Lemma length_append_to_last (suffix : string) (l : list string) :
  List.length (append_to_last suffix l) = List.length l.
Proof.
  destruct (rev l) as [|x r] eqn:Hr.
  - apply (f_equal (@rev string)) in Hr. rewrite rev_involutive in Hr. subst l. reflexivity.
  - assert (Hl : l = (rev r ++ [x])%list) by (rewrite <- (rev_involutive l), Hr; reflexivity).
    rewrite Hl, append_to_last_snoc, !length_app. reflexivity.
Qed.

(** Line [i] of the plan is the [i]-th day line, with the group-size suffix
    exactly on the last one. *)
Lemma build_itinerary_nth (destination : string) (ndays people : nat)
  (prefs : list string) (ws : list weather) (i : nat) :
  i < ndays ->
  nth i (build_itinerary destination ndays people prefs ws) EmptyString =
  if Nat.eqb i (ndays - 1)
  then day_line destination (activity_pool prefs) ws i
       ++ " Departure planning for " ++ show_nat people ++ " traveler(s)."
  else day_line destination (activity_pool prefs) ws i.
Proof.
  intros Hi. unfold build_itinerary.
  rewrite append_to_last_nth by (rewrite length_map, length_seq; exact Hi).
  rewrite length_map, length_seq.
  rewrite nth_indep with (d' := day_line destination (activity_pool prefs) ws 0)
    by (rewrite length_map, length_seq; exact Hi).
  rewrite map_nth, seq_nth by exact Hi. reflexivity.
Qed.

Lemma length_build_itinerary (destination : string) (ndays people : nat)
  (prefs : list string) (ws : list weather) :
  List.length (build_itinerary destination ndays people prefs ws) = ndays.
Proof.
  unfold build_itinerary. rewrite length_append_to_last, length_map, length_seq. reflexivity.
Qed.

Lemma str_app_nil_r (a : string) : a ++ EmptyString = a.
Proof. induction a as [|c a IH]; simpl; [reflexivity | rewrite IH; reflexivity]. Qed.

Lemma str_app_assoc (a b c : string) : (a ++ b) ++ c = a ++ (b ++ c).
Proof. induction a as [|ch a IH]; simpl; [reflexivity | rewrite IH; reflexivity]. Qed.

Lemma activity_pool_spec (prefs : list string) : activity_pool prefs = spec_pool prefs.
Proof.
  unfold activity_pool, spec_pool.
  replace (flat_map ACTIVITY_MAP (map py_lower prefs))
    with (flat_map (fun p => ACTIVITY_MAP (py_lower p)) prefs).
  - destruct (flat_map (fun p => ACTIVITY_MAP (py_lower p)) prefs); reflexivity.
  - induction prefs as [|p ps IH]; simpl; [reflexivity | rewrite IH; reflexivity].
Qed.

Lemma day_line_spec (destination : string) (prefs : list string) (ws : list weather) (i : nat) :
  day_line destination (activity_pool prefs) ws i =
  spec_line destination (nth (i mod List.length (spec_pool prefs)) (spec_pool prefs) EmptyString)
    (spec_weather_clause ws i) i.
Proof. rewrite activity_pool_spec. reflexivity. Qed.

End ComposerFacts.

(** C6: every composed line is ["Day {i+1}: {activity} in {Destination} — {clause}."],
    the clause being the rounded min/max average with the rain chance when
    both temperatures exist and "weather details unavailable" otherwise; the
    departure suffix is appended after the period of the final line only. *)
Theorem C6_itinerary_line_format (destination : string) (ndays people : nat)
  (prefs : list string) (ws : list weather) :
  List.length (build_itinerary destination ndays people prefs ws) = ndays /\
  (forall i, i < ndays ->
     nth i (build_itinerary destination ndays people prefs ws) EmptyString =
     spec_line destination (nth (i mod List.length (spec_pool prefs)) (spec_pool prefs) EmptyString)
       (spec_weather_clause ws i) i
     ++ (if Nat.eqb i (ndays - 1) then spec_departure people else EmptyString)).
Proof.
  split.
  - apply length_build_itinerary.
  - intros i Hi. rewrite build_itinerary_nth by exact Hi. rewrite day_line_spec.
    destruct (Nat.eqb i (ndays - 1)); [reflexivity | symmetry; apply str_app_nil_r].
Qed.

(** C9: the pool is the in-order concatenation of the recognised
    preferences' 3-item lists (unrecognised tags add nothing), else the
    4-item default; day [i] uses [pool[i mod len(pool)]]; so for a 7-day trip
    with one recognised preference, days 1 and 4 have the same activity. *)
Theorem C9_activity_pool_cyclic :
  (forall prefs, activity_pool prefs =
     match flat_map (fun p => ACTIVITY_MAP (py_lower p)) prefs with
     | [] => DEFAULT_POOL | pool => pool end) /\
  (forall p, List.length (ACTIVITY_MAP p) = 3 \/ ACTIVITY_MAP p = []) /\
  List.length DEFAULT_POOL = 4 /\
  (forall destination ndays people prefs ws i, i < ndays ->
     exists rest, nth i (build_itinerary destination ndays people prefs ws) EmptyString =
       "Day " ++ show_nat (i + 1) ++ ": "
       ++ nth (i mod List.length (activity_pool prefs)) (activity_pool prefs) EmptyString
       ++ " in " ++ rest) /\
  (forall p destination people ws, List.length (ACTIVITY_MAP (py_lower p)) = 3 ->
     exists activity rest1 rest4,
       nth 0 (build_itinerary destination 7 people [p] ws) EmptyString
         = "Day 1: " ++ activity ++ " in " ++ rest1 /\
       nth 3 (build_itinerary destination 7 people [p] ws) EmptyString
         = "Day 4: " ++ activity ++ " in " ++ rest4).
Proof.
  split; [intros prefs; apply activity_pool_spec |].
  split.
  { intros p. unfold ACTIVITY_MAP.
    repeat match goal with |- context [if ?b then _ else _] => destruct b end; auto. }
  split; [reflexivity |].
  assert (Hline : forall destination ndays people prefs ws i, i < ndays ->
     exists rest, nth i (build_itinerary destination ndays people prefs ws) EmptyString =
       "Day " ++ show_nat (i + 1) ++ ": "
       ++ nth (i mod List.length (activity_pool prefs)) (activity_pool prefs) EmptyString
       ++ " in " ++ rest).
  { intros destination ndays people prefs ws i Hi. rewrite build_itinerary_nth by exact Hi.
    unfold day_line. destruct (Nat.eqb i (ndays - 1)).
    - eexists. rewrite !str_app_assoc. reflexivity.
    - eexists. reflexivity. }
  split; [exact Hline |].
  intros p destination people ws H3.
  assert (Hpool : activity_pool [p] = ACTIVITY_MAP (py_lower p)).
  { unfold activity_pool. simpl. rewrite app_nil_r.
    destruct (ACTIVITY_MAP (py_lower p)); [discriminate | reflexivity]. }
  destruct (Hline destination 7 people [p] ws 0 ltac:(lia)) as [r1 E1].
  destruct (Hline destination 7 people [p] ws 3 ltac:(lia)) as [r4 E4].
  rewrite Hpool, H3 in E1, E4.
  exists (nth 0 (ACTIVITY_MAP (py_lower p)) EmptyString), r1, r4. split; assumption.
Qed.


(* ------------------------------------------------------------------ *)
(** ** Facts about the Dialog State Machine *)

(** Case analysis of one run of [travel_node]: every [match] of the node is
    split, and the returned dictionary is exposed. *)
Ltac split_node H :=
  unfold travel_node, bind in H;
  repeat (cbv beta in H;
          match type of H with
          | context [match ?x with _ => _ end] => let E := fresh "E" in destruct x eqn:E
          end);
  try discriminate H;
  try (injection H as <-).

Section DialogFacts.

Variable env : Env.

Lemma node_days_people_pos (s : TravelState) (u : Update) :
  travel_node env s = Ok u ->
  (forall d, u_days u = Some d -> 1 <= d) /\ (forall p, u_people u = Some p -> 1 <= p).
Proof.
  intros H. split_node H; simpl; split; intros x Hx; try discriminate Hx;
    injection Hx as <-; lia.
Qed.

Lemma advance_inv (s s' : TravelState) :
  advance env s = Ok s' -> exists u, travel_node env s = Ok u /\ s' = apply_update s u.
Proof.
  unfold advance, bind. destruct (travel_node env s) as [u|e]; intros H; [|discriminate H].
  injection H as <-. eauto.
Qed.

Lemma chat_inv (s s' : TravelState) (m : string) :
  chat env s m = Ok s' ->
  exists u, s' = apply_update {| messages := messages s ++ [Human m]; input_text := Some m;
                 ui := ui s; name := name s; destination := destination s; days := days s;
                 people := people s; start_date := start_date s; preferences := preferences s;
                 itinerary := itinerary s |} u /\
            travel_node env {| messages := messages s ++ [Human m]; input_text := Some m;
                 ui := ui s; name := name s; destination := destination s; days := days s;
                 people := people s; start_date := start_date s; preferences := preferences s;
                 itinerary := itinerary s |} = Ok u.
Proof. unfold chat. intros H. apply advance_inv in H as [u [Hu ->]]. eauto. Qed.

Lemma node_length_stage (s : TravelState) c0 nm c1 dst :
  name s = Some (String c0 nm) -> destination s = Some (String c1 dst) ->
  truthy_nat (days s) && truthy_nat (people s) = false ->
  travel_node env s =
  let user_text := py_strip (match input_text s with Some t => t | None => EmptyString end) in
  let '(d1, p1) := extract_days_people user_text (days s) (people s) in
  match d1, p1 with
  | Some ((S _) as d), Some ((S _) as p) =>
      Ok {| u_messages := messages s ++
              [AI "Great. What is the trip start date? Please provide in YYYY-MM-DD format."];
            u_ui := None; u_name := None; u_destination := None; u_days := Some d;
            u_people := Some p; u_start_date := None; u_preferences := None; u_itinerary := None |}
  | _, _ => Ok (reply (messages s) LENGTH_REPROMPT)
  end.
Proof.
  intros Hn Hd Ht. unfold travel_node. rewrite Hn, Hd.
  destruct (days s) as [[|d]|], (people s) as [[|p]|]; simpl in Ht; try discriminate Ht;
    reflexivity.
Qed.

End DialogFacts.

(** Induction over the turns of a session for a property every [chat] keeps. *)
Lemma run_session_preserves (P : TravelState -> Prop) :
  (forall env s m s', P s -> chat env s m = Ok s' -> P s') ->
  forall turns s s', P s -> run_session s turns = Ok s' -> P s'.
Proof.
  intros Hstep turns. induction turns as [|[env m] turns IH]; intros s s' Hs H; simpl in H.
  - injection H as <-. exact Hs.
  - unfold bind in H. destruct (chat env s m) as [s1|e] eqn:E; [|discriminate H].
    exact (IH s1 s' (Hstep env s m s1 Hs E) H).
Qed.

(** C10: a 0 never resolves trip length or group size. The node only ever
    stores values of at least 1; at the length-and-size stage an extraction
    that yields 0 for either slot leaves both slots as they were and issues
    the re-prompt; so every length and size stored in a session is at least 1. *)
Theorem C10_zero_never_resolves :
  (forall env s u, travel_node env s = Ok u ->
     (forall d, u_days u = Some d -> 1 <= d) /\ (forall p, u_people u = Some p -> 1 <= p)) /\
  (forall env s c0 nm c1 dst,
     name s = Some (String c0 nm) -> destination s = Some (String c1 dst) ->
     truthy_nat (days s) && truthy_nat (people s) = false ->
     let user_text := py_strip (match input_text s with Some t => t | None => EmptyString end) in
     (fst (extract_days_people user_text (days s) (people s)) = Some 0 \/
      snd (extract_days_people user_text (days s) (people s)) = Some 0) ->
     travel_node env s = Ok (reply (messages s) LENGTH_REPROMPT) /\
     exists s', advance env s = Ok s' /\ days s' = days s /\ people s' = people s) /\
  (forall turns s', run_session initial_session turns = Ok s' ->
     (forall d, days s' = Some d -> 1 <= d) /\ (forall p, people s' = Some p -> 1 <= p)).
Proof.
  split; [exact node_days_people_pos |].
  split.
  - intros env s c0 nm c1 dst Hn Hd Ht user_text H0.
    assert (Hnode : travel_node env s = Ok (reply (messages s) LENGTH_REPROMPT)).
    { unfold travel_node. rewrite Hn, Hd. fold user_text.
      destruct (days s) as [[|d]|], (people s) as [[|p]|]; simpl in Ht; try discriminate Ht;
        destruct (extract_days_people user_text _ _) as [d1 p1];
        simpl in H0; destruct H0 as [-> | ->];
        try reflexivity; destruct d1 as [[|]|]; reflexivity. }
    split; [exact Hnode |].
    eexists. unfold advance. rewrite Hnode. simpl. split; [reflexivity | split; reflexivity].
  - intros turns s' Hrun.
    refine (run_session_preserves
             (fun s => (forall d, days s = Some d -> 1 <= d) /\
                       (forall p, people s = Some p -> 1 <= p)) _ turns initial_session s' _ Hrun).
    + intros env s m s1 [Hd Hp] H.
      apply chat_inv in H as [u [-> Hu]].
      destruct (node_days_people_pos env _ u Hu) as [Hud Hup].
      simpl. unfold upd. split.
      * destruct (u_days u) as [d|] eqn:E; simpl; intros x Hx; [injection Hx as <-|]; auto.
      * destruct (u_people u) as [p|] eqn:E; simpl; intros x Hx; [injection Hx as <-|]; auto.
    + simpl. split; intros x Hx; discriminate Hx.
Qed.


(** C3 (as amended): at the length-and-size stage, an utterance with two or
    more digit runs whose first two values are non-zero stores the first as
    trip length and the second as group size (later numbers ignored) and asks
    for the start date; if either of the first two values is 0, neither slot
    is stored and the length-and-size re-prompt is issued. *)
Theorem C3_two_numbers_assign (env : Env) (s : TravelState) c0 nm c1 dst n0 n1 rest :
  name s = Some (String c0 nm) -> destination s = Some (String c1 dst) ->
  truthy_nat (days s) && truthy_nat (people s) = false ->
  extract_numbers (py_strip (match input_text s with Some t => t | None => EmptyString end))
    = n0 :: n1 :: rest ->
  (1 <= n0 -> 1 <= n1 ->
     travel_node env s =
     Ok {| u_messages := messages s ++
             [AI "Great. What is the trip start date? Please provide in YYYY-MM-DD format."];
           u_ui := None; u_name := None; u_destination := None; u_days := Some n0;
           u_people := Some n1; u_start_date := None; u_preferences := None;
           u_itinerary := None |} /\
     exists s', advance env s = Ok s' /\ days s' = Some n0 /\ people s' = Some n1) /\
  (n0 = 0 \/ n1 = 0 ->
     travel_node env s = Ok (reply (messages s) LENGTH_REPROMPT) /\
     exists s', advance env s = Ok s' /\ days s' = days s /\ people s' = people s).
Proof.
  intros Hn Hd Ht Hx.
  assert (He : extract_days_people
                 (py_strip (match input_text s with Some t => t | None => EmptyString end))
                 (days s) (people s) = (Some n0, Some n1)).
  { unfold extract_days_people.
    destruct (py_strip _) as [|c t] eqn:Es; [discriminate Hx |]. rewrite Hx. reflexivity. }
  rewrite (node_length_stage env s c0 nm c1 dst Hn Hd Ht). cbv zeta. rewrite He.
  split.
  - intros H0 H1. destruct n0 as [|n0]; [lia |]. destruct n1 as [|n1]; [lia |].
    split; [reflexivity |].
    eexists. unfold advance. rewrite (node_length_stage env s c0 nm c1 dst Hn Hd Ht).
    cbv zeta. rewrite He. simpl. split; [reflexivity | split; reflexivity].
  - intros Hz.
    assert (Hr : match Some n0, Some n1 with
                 | Some ((S _) as d), Some ((S _) as p) =>
                     Ok {| u_messages := messages s ++
                             [AI "Great. What is the trip start date? Please provide in YYYY-MM-DD format."];
                           u_ui := None; u_name := None; u_destination := None; u_days := Some d;
                           u_people := Some p; u_start_date := None; u_preferences := None;
                           u_itinerary := None |}
                 | _, _ => Ok (reply (messages s) LENGTH_REPROMPT)
                 end = Ok (reply (messages s) LENGTH_REPROMPT)).
    { destruct Hz as [-> | ->]; [reflexivity | destruct n0 as [|]; reflexivity]. }
    rewrite Hr. split; [reflexivity |].
    eexists. unfold advance. rewrite (node_length_stage env s c0 nm c1 dst Hn Hd Ht).
    cbv zeta. rewrite He, Hr. simpl. split; [reflexivity | split; reflexivity].
Qed.

(** C3 fails as stated: "0 days and 2 people" at the length-and-size stage
    does not make 0 the trip length and 2 the group size; both stay unset. *)
Lemma C3_counterexample :
  ~ (exists s', advance offline_env (at_length_stage "0 days and 2 people") = Ok s' /\
                days s' = Some 0 /\ people s' = Some 2).
Proof.
  intros [s' [H [Hd _]]]. vm_compute in H. injection H as <-. discriminate Hd.
Qed.

(** C8: at the preferences stage the utterance is split on commas, every
    token trimmed and lower-cased and the empty ones dropped
    (["food, Shopping ,  "] gives [["food"; "shopping"]]); an empty result
    re-emits the preference hint with a re-prompt and leaves preferences
    unset, otherwise the preferences are stored and the itinerary stage runs
    in the same invocation. *)
Theorem C8_preferences_stage (env : Env) (s : TravelState) c0 nm c1 dst d p c2 sd :
  name s = Some (String c0 nm) -> destination s = Some (String c1 dst) ->
  days s = Some (S d) -> people s = Some (S p) -> start_date s = Some (String c2 sd) ->
  preferences s = [] ->
  let user_text := py_strip (match input_text s with Some t => t | None => EmptyString end) in
  parse_preferences user_text = spec_parse_preferences user_text /\
  spec_parse_preferences (py_strip "food, Shopping ,  ") = ["food"; "shopping"] /\
  (spec_parse_preferences user_text = [] ->
     travel_node env s =
     Ok {| u_messages := messages s ++ [AI PREFERENCES_REPROMPT]; u_ui := Some PREFERENCE_HINT;
           u_name := None; u_destination := None; u_days := None; u_people := None;
           u_start_date := None; u_preferences := None; u_itinerary := None |} /\
     exists s', advance env s = Ok s' /\ preferences s' = [] /\ ui s' = PREFERENCE_HINT) /\
  (spec_parse_preferences user_text <> [] ->
     travel_node env s =
     bind (plan_trip env (String c1 dst) (S d) (S p) (spec_parse_preferences user_text)
             (Some (String c2 sd)))
       (fun plan => let '(opening, itin) := plan in
          Ok {| u_messages := messages s ++
                  [AI (py_join "
" (["That's great—planning your itinerary now."; opening] ++ itin))];
                u_ui := Some UiEmpty; u_name := None; u_destination := None; u_days := None;
                u_people := None; u_start_date := None;
                u_preferences := Some (spec_parse_preferences user_text);
                u_itinerary := Some itin |})).
Proof.
  intros Hn Hd Hdy Hp Hsd Hpr user_text.
  assert (Hparse : parse_preferences user_text = spec_parse_preferences user_text).
  { unfold parse_preferences, spec_parse_preferences. destruct user_text; reflexivity. }
  assert (Hnode : travel_node env s =
            match parse_preferences user_text with
            | [] => Ok {| u_messages := messages s ++ [AI PREFERENCES_REPROMPT];
                          u_ui := Some PREFERENCE_HINT; u_name := None; u_destination := None;
                          u_days := None; u_people := None; u_start_date := None;
                          u_preferences := None; u_itinerary := None |}
            | chosen =>
                bind (plan_trip env (String c1 dst) (S d) (S p) chosen (Some (String c2 sd)))
                  (fun plan => let '(opening, itin) := plan in
                     Ok {| u_messages := messages s ++
                             [AI (py_join "
" (["That's great—planning your itinerary now."; opening] ++ itin))];
                           u_ui := Some UiEmpty; u_name := None; u_destination := None;
                           u_days := None; u_people := None; u_start_date := None;
                           u_preferences := Some chosen; u_itinerary := Some itin |})
            end).
  { unfold travel_node. rewrite Hn, Hd, Hdy, Hp, Hsd, Hpr. fold user_text.
    destruct (parse_preferences user_text); reflexivity. }
  split; [exact Hparse |].
  split; [reflexivity |].
  rewrite Hparse in Hnode.
  split.
  - intros He. rewrite He in Hnode. split; [exact Hnode |].
    eexists. unfold advance. rewrite Hnode.
    split; [reflexivity | simpl; rewrite Hpr; split; reflexivity].
  - intros Hne. rewrite Hnode. destruct (spec_parse_preferences user_text); [contradiction |].
    reflexivity.
Qed.

(** C2 (as amended): every invocation of [travel_node] returns the transcript
    it read with exactly one assistant entry appended; an invocation that
    resolves no slot leaves every other part of the state as it was, except
    that the preferences re-prompt also sets the ui hint to the preference
    checkbox directive. *)
Theorem C2_one_reply_and_frame (env : Env) (s : TravelState) (u : Update) :
  travel_node env s = Ok u ->
  (exists c, u_messages u = (messages s ++ [AI c])%list) /\
  (resolves_no_slot u = true ->
     (u_ui u = None \/
      (u_ui u = Some PREFERENCE_HINT /\
       u_messages u = (messages s ++ [AI PREFERENCES_REPROMPT])%list)) /\
     let s' := apply_update s u in
     input_text s' = input_text s /\ name s' = name s /\ destination s' = destination s /\
     days s' = days s /\ people s' = people s /\ start_date s' = start_date s /\
     preferences s' = preferences s /\ itinerary s' = itinerary s).
Proof.
  intros H. split_node H; unfold reply; simpl;
    (split; [eexists; reflexivity |]);
    intros Hr; try discriminate Hr;
    (split; [first [left; reflexivity | right; split; reflexivity] |]);
    repeat split; congruence.
Qed.

(** C2 fails as stated: at the preferences stage with an empty ui, an empty
    utterance resolves nothing, yet the returned state has a different ui. *)
Lemma C2_counterexample :
  exists s', advance offline_env (at_preferences_stage UiEmpty "") = Ok s' /\
             preferences s' = [] /\ ui s' <> ui (at_preferences_stage UiEmpty "").
Proof.
  eexists. split; [vm_compute; reflexivity |]. split; [reflexivity | discriminate].
Qed.

Lemma node_env_independent (env1 env2 : Env) (s : TravelState) :
  travel_node env1 s = travel_node env2 s \/ reaches_itinerary_stage s = true.
Proof.
  unfold travel_node, reaches_itinerary_stage, bind.
  repeat match goal with |- context [match ?x with _ => _ end] => destruct x eqn:? end;
    auto; try (simpl; auto; match goal with H : inr _ = inl _ |- _ => discriminate H end).
Qed.

(** C4 (as amended): the next state is a function of the state, the user
    text and the outcomes of the external calls; an invocation that stops
    before the itinerary stage gives the same next state whatever those
    outcomes are (random fact pick, generative backend, provider replies). *)
Theorem C4_deterministic_before_itinerary (env1 env2 : Env) (s : TravelState) :
  reaches_itinerary_stage s = false -> advance env1 s = advance env2 s.
Proof.
  intros H. unfold advance.
  destruct (node_env_independent env1 env2 s) as [E | E]; [rewrite E; reflexivity | congruence].
Qed.

(** C4 fails as stated: the same state and text at the preferences stage
    for Goa give two different next states when [random.choice] picks a
    different curated fact. *)
Lemma C4_counterexample :
  advance (offline_env_pick 0) (at_preferences_stage PREFERENCE_HINT "food")
  <> advance (offline_env_pick 1) (at_preferences_stage PREFERENCE_HINT "food").
Proof.
  intros H.
  apply (f_equal (fun r => match r with
                           | Ok s' => last (messages s') (Human EmptyString)
                           | Raise _ => Human EmptyString
                           end)) in H.
  vm_compute in H. discriminate H.
Qed.

(* ------------------------------------------------------------------ *)
(** ** Facts about the 3-hour aggregation *)

Section Aggregation.

Definition push_all (es : list fc_item) (b : bucket) : bucket :=
  fold_left (fun b it => bucket_push it b) es b.

Lemma push_all_spec (es : list fc_item) (b : bucket) :
  push_all es b = {| temps := temps b ++ entry_temps es; mins := mins b ++ entry_mins es;
                     maxs := maxs b ++ entry_maxs es; pops := pops b ++ entry_pops es |}.
Proof.
  revert b. induction es as [|it es IH]; intros b; simpl.
  - rewrite !app_nil_r. destruct b; reflexivity.
  - unfold push_all in *. simpl. rewrite IH. simpl. rewrite <- !app_assoc. reflexivity.
Qed.

Lemma lookup_setdefault (k k' : string) (f : bucket -> bucket) (d : list (string * bucket)) :
  lookup k (setdefault_update k' f d) =
  if String.eqb k k' then Some (f (match lookup k d with Some b => b | None => empty_bucket end))
  else lookup k d.
Proof.
  induction d as [|[k1 b1] d IH]; simpl.
  - destruct (String.eqb k k'); reflexivity.
  - destruct (String.eqb_spec k' k1) as [<- | Hne]; simpl.
    + destruct (String.eqb k k'); reflexivity.
    + rewrite IH. destruct (String.eqb_spec k k') as [-> | Hk]; [|reflexivity].
      destruct (String.eqb_spec k' k1); [contradiction | reflexivity].
Qed.

Lemma lookup_group (k : string) (items : list fc_item) (acc : list (string * bucket)) :
  lookup k (fold_left by_day_step items acc) =
  match day_entries k items with
  | [] => lookup k acc
  | es => Some (push_all es (match lookup k acc with Some b => b | None => empty_bucket end))
  end.
Proof.
  revert acc. induction items as [|it items IH]; intros acc; simpl; [reflexivity |].
  rewrite IH. unfold by_day_step.
  destruct (item_key it) as [k'|] eqn:Ek.
  - rewrite lookup_setdefault.
    destruct (String.eqb_spec k k') as [<- | Hne].
    + rewrite String.eqb_refl.
      destruct (day_entries k items); reflexivity.
    + destruct (String.eqb_spec k' k) as [-> | _]; [contradiction |]. reflexivity.
  - reflexivity.
Qed.

Lemma lookup_in_keys (k : string) (d : list (string * bucket)) :
  In k (map fst d) -> exists b, lookup k d = Some b.
Proof.
  induction d as [|[k1 b1] d IH]; simpl; [tauto |].
  intros [<- | H]; [rewrite String.eqb_refl; eauto |].
  destruct (String.eqb k k1); eauto.
Qed.

Lemma in_insert_sorted (x y : string) (l : list string) :
  In y (insert_sorted x l) -> y = x \/ In y l.
Proof.
  induction l as [|z l IH]; simpl.
  - intros [H | []]. left. congruence.
  - destruct (str_ltb x z); simpl.
    + intros [H | [H | H]]; [left; congruence | right; left; exact H | right; right; exact H].
    + intros [H | H]; [right; left; exact H |].
      apply IH in H as [H | H]; [left; exact H | right; right; exact H].
Qed.

Lemma in_sorted_strings (y : string) (l : list string) : In y (sorted_strings l) -> In y l.
Proof.
  induction l as [|x l IH]; simpl; [tauto |].
  intros H. apply in_insert_sorted in H as [H | H]; [left; congruence | right; auto].
Qed.

Lemma in_firstn_in {A} (n : nat) (x : A) (l : list A) : In x (firstn n l) -> In x l.
Proof.
  intros H. rewrite <- (firstn_skipn n l). apply in_or_app. left. exact H.
Qed.

Lemma in_skipn_in {A} (n : nat) (x : A) (l : list A) : In x (skipn n l) -> In x l.
Proof.
  intros H. rewrite <- (firstn_skipn n l). apply in_or_app. right. exact H.
Qed.

Lemma slice_from_in (sd : option string) (n : nat) (ws ws' : list weather) (w : weather) :
  slice_from sd n ws = Ok ws' -> In w ws' -> In w ws.
Proof.
  unfold slice_from, bind. intros H Hin.
  destruct sd as [sds|]; [|injection H as <-; exact Hin].
  destruct (truthy_str (Some sds)); [|injection H as <-; exact Hin].
  destruct (fromisoformat sds); [|discriminate H].
  destruct (first_on_or_after 0 _ ws); [|discriminate H].
  injection H as <-. exact (in_skipn_in _ _ _ (in_firstn_in _ _ _ Hin)).
Qed.

Lemma in_aggregate (n : nat) (items : list fc_item) (w : weather) :
  In w (aggregate n items) ->
  day_entries (w_date w) items <> [] /\
  w = day_summary (w_date w) (push_all (day_entries (w_date w) items) empty_bucket).
Proof.
  unfold aggregate. intros H. apply in_firstn_in, in_map_iff in H as [day [<- Hday]].
  apply in_firstn_in, in_sorted_strings in Hday.
  destruct (lookup_in_keys day (group_by_day items) Hday) as [b Hb].
  unfold group_by_day in *. rewrite lookup_group in *. simpl.
  destruct (day_entries day items) as [|e es]; [discriminate Hb |].
  split; [discriminate | reflexivity].
Qed.

Lemma py_min_spec (x : Q) (xs : list Q) :
  In (py_min x xs) (x :: xs) /\ (forall y, In y (x :: xs) -> (py_min x xs <= y)%Q).
Proof.
  revert x. induction xs as [|z xs IH]; intros x.
  - simpl. split; [left; reflexivity | intros y [<- | []]; apply Qle_refl].
  - unfold py_min in *. simpl.
    destruct (Qlt_le_dec z x) as [Hlt | Hle].
    + destruct (IH z) as [Hin Hmin]. split.
      * simpl in Hin |- *. tauto.
      * intros y [<- | Hy]; [| exact (Hmin y Hy)].
        apply Qle_trans with z; [apply Hmin; left; reflexivity | apply Qlt_le_weak; exact Hlt].
    + destruct (IH x) as [Hin Hmin]. split.
      * simpl in Hin |- *. tauto.
      * intros y [<- | [<- | Hy]]; [apply Hmin; left; reflexivity | |apply Hmin; right; exact Hy].
        apply Qle_trans with x; [apply Hmin; left; reflexivity | exact Hle].
Qed.

Lemma py_max_spec (x : Q) (xs : list Q) :
  In (py_max x xs) (x :: xs) /\ (forall y, In y (x :: xs) -> (y <= py_max x xs)%Q).
Proof.
  revert x. induction xs as [|z xs IH]; intros x.
  - simpl. split; [left; reflexivity | intros y [<- | []]; apply Qle_refl].
  - unfold py_max in *. simpl.
    destruct (Qlt_le_dec x z) as [Hlt | Hle].
    + destruct (IH z) as [Hin Hmax]. split.
      * simpl in Hin |- *. tauto.
      * intros y [<- | Hy]; [| exact (Hmax y Hy)].
        apply Qle_trans with z; [apply Qlt_le_weak; exact Hlt | apply Hmax; left; reflexivity].
    + destruct (IH x) as [Hin Hmax]. split.
      * simpl in Hin |- *. tauto.
      * intros y [<- | [<- | Hy]]; [apply Hmax; left; reflexivity | |apply Hmax; right; exact Hy].
        apply Qle_trans with x; [exact Hle | apply Hmax; left; reflexivity].
Qed.

End Aggregation.

(** C7: when the long-range daily source is unavailable or empty, every
    returned summary is the aggregate of the 3-hour entries of its calendar
    day: the least of their minimum temperatures, the greatest of their
    maximum temperatures, and the greatest (not the average) of their rain
    probabilities, as a rounded percentage. *)
Theorem C7_forecast_fallback_aggregates (env : Env) (lat lon : Q) (ndays : nat)
  (sd : option string) (status : Z) (items : list fc_item) (ws : list weather) :
  OPENWEATHER_API_KEY env <> EmptyString ->
  onecall_daily env lat lon ndays = Ok None ->
  forecast_api env lat lon = Reply status (Some items) ->
  daily_weather env lat lon ndays sd = Ok ws ->
  forall w, In w ws ->
    let es := day_entries (w_date w) items in
    es <> [] /\
    (entry_mins es <> [] ->
       exists m, t_min w = Some m /\ In m (entry_mins es) /\
                 forall x, In x (entry_mins es) -> (m <= x)%Q) /\
    (entry_maxs es <> [] ->
       exists m, t_max w = Some m /\ In m (entry_maxs es) /\
                 forall x, In x (entry_maxs es) -> (x <= m)%Q) /\
    (exists m, precip_prob w = py_round (m * 100)%Q /\ In m (entry_pops es) /\
               forall x, In x (entry_pops es) -> (x <= m)%Q).
Proof.
  intros Hkey Hoc Hfc Hdw w Hw es.
  unfold daily_weather in Hdw.
  destruct (String.eqb_spec (OPENWEATHER_API_KEY env) EmptyString) as [E | _]; [contradiction |].
  rewrite Hoc in Hdw. simpl in Hdw. unfold forecast5_aggregate in Hdw. rewrite Hfc in Hdw.
  destruct ((400 <=? status)%Z && (status <? 600)%Z); [discriminate Hdw |].
  simpl in Hdw. apply (slice_from_in _ _ _ _ w Hdw) in Hw.
  destruct (in_aggregate ndays items w Hw) as [Hne Heq]. fold es in Hne, Heq.
  rewrite push_all_spec in Heq. simpl in Heq.
  split; [exact Hne |].
  split; [|split].
  - intros Hm. destruct (entry_mins es) as [|x xs] eqn:Em; [contradiction |].
    rewrite Heq. simpl. destruct (py_min_spec x xs). eauto.
  - intros Hm. destruct (entry_maxs es) as [|x xs] eqn:Em; [contradiction |].
    rewrite Heq. simpl. destruct (py_max_spec x xs). eauto.
  - destruct es as [|e es'] eqn:Ees; [contradiction |].
    unfold entry_pops in Heq |- *. simpl in Heq |- *.
    destruct (py_max_spec (match f_pop e with Some p => p | None => 0%Q end)
                (map (fun it => match f_pop it with Some p => p | None => 0%Q end) es')).
    rewrite Heq. simpl. eauto.
Qed.

(** C1 is contradicted by the code: with credentials configured, an error
    status of the 3-hour endpoint ([raise_for_status]), a transport failure
    of the geocoding request, and a start date that is not [YYYY-MM-DD]
    ([date.fromisoformat]) each raise out of [travel_node]. *)
Theorem C1_gateway_exceptions_escape :
  advance env_forecast_500 (at_preferences_stage PREFERENCE_HINT "food") = Raise (HTTPError 500) /\
  advance env_geo_down (at_preferences_stage PREFERENCE_HINT "food") = Raise ConnectionError /\
  advance env_forecast_empty (at_preferences_stage_on "next monday" "food") = Raise ValueError.
Proof. split; [|split]; vm_compute; reflexivity. Qed.

(** C5 fails as stated: after the itinerary is produced, a further turn
    runs the itinerary stage again and replaces the itinerary (here the
    weather became available between the two turns). *)
Lemma C5_counterexample :
  exists s5 s6,
    run_session initial_session (scenario env_geo_503) = Ok s5 /\
    run_session s5 [(env_weather_up, "thanks")] = Ok s6 /\
    itinerary s5 <> [] /\
    String.eqb (nth 0 (itinerary s6) EmptyString) (nth 0 (itinerary s5) EmptyString) = false.
Proof.
  eexists. eexists. split; [vm_compute; reflexivity |].
  split; [vm_compute; reflexivity |].
  split; [vm_compute; discriminate | vm_compute; reflexivity].
Qed.

Lemma build_itinerary_nonempty (destination : string) (d people : nat)
  (prefs : list string) (ws : list weather) :
  build_itinerary destination (S d) people prefs ws <> [].
Proof.
  intros H. apply (f_equal (@List.length string)) in H.
  rewrite length_build_itinerary in H. discriminate H.
Qed.

Lemma plan_trip_itinerary (env : Env) dst nd np prefs sd opening itin :
  plan_trip env dst nd np prefs sd = Ok (opening, itin) ->
  exists ws, itin = build_itinerary dst nd np prefs ws.
Proof.
  unfold plan_trip, bind.
  destruct (fun_fact env dst); [|discriminate].
  destruct (geocode env dst) as [[[lat lon]|]|]; [| |discriminate].
  - destruct (daily_weather env lat lon nd sd) as [ws|]; [|discriminate].
    intros H. injection H as _ <-. eauto.
  - intros H. injection H as _ <-. eauto.
Qed.

(** The six shapes of the dictionary [travel_node] returns: no slot, or
    exactly the slot of the first unresolved stage. *)
Lemma node_shapes (env : Env) (s : TravelState) (u : Update) :
  travel_node env s = Ok u ->
  (truthy_str (name s) && truthy_str (destination s) && truthy_nat (days s) &&
   truthy_nat (people s) && truthy_str (start_date s) &&
   match preferences s with [] => false | _ => true end = false /\
   u_name u = None /\ u_destination u = None /\ u_days u = None /\ u_people u = None /\
   u_start_date u = None /\ u_preferences u = None /\ u_itinerary u = None) \/
  (truthy_str (name s) = false /\ (exists v, u_name u = Some v) /\
   u_destination u = None /\ u_days u = None /\ u_people u = None /\
   u_start_date u = None /\ u_preferences u = None /\ u_itinerary u = None) \/
  (truthy_str (name s) = true /\ truthy_str (destination s) = false /\
   u_name u = None /\ (exists v, u_destination u = Some v) /\ u_days u = None /\
   u_people u = None /\ u_start_date u = None /\ u_preferences u = None /\
   u_itinerary u = None) \/
  (truthy_str (name s) = true /\ truthy_str (destination s) = true /\
   truthy_nat (days s) && truthy_nat (people s) = false /\
   u_name u = None /\ u_destination u = None /\
   (exists d p, u_days u = Some (S d) /\ u_people u = Some (S p)) /\
   u_start_date u = None /\ u_preferences u = None /\ u_itinerary u = None) \/
  (truthy_str (name s) = true /\ truthy_str (destination s) = true /\
   truthy_nat (days s) = true /\ truthy_nat (people s) = true /\
   truthy_str (start_date s) = false /\
   u_name u = None /\ u_destination u = None /\ u_days u = None /\ u_people u = None /\
   (exists v, u_start_date u = Some v) /\ u_preferences u = None /\ u_itinerary u = None) \/
  (exists dst d p prefs ws,
   u_preferences u = Some prefs /\
   u_itinerary u = Some (build_itinerary dst (S d) (S p) prefs ws) /\
   u_name u = None /\ u_destination u = None /\ u_days u = None /\ u_people u = None /\
   u_start_date u = None /\
   truthy_str (name s) = true /\ destination s = Some dst /\ truthy_str (Some dst) = true /\
   days s = Some (S d) /\ people s = Some (S p) /\ truthy_str (start_date s) = true /\
   prefs <> [] /\ (preferences s <> [] -> prefs = preferences s)).
Proof.
  intros H. split_node H.
  all: try match goal with
           | E : plan_trip _ _ _ _ _ _ = Ok (_, _) |- _ =>
               destruct (plan_trip_itinerary _ _ _ _ _ _ _ _ E) as [ws ->]
           end.
  all: try match goal with
           | E : match preferences ?st with _ => _ end = _ |- _ =>
               destruct (preferences st) as [|p0 ps] eqn:Ep;
               [destruct (parse_preferences _) as [|c cs] eqn:Ec|];
               try discriminate E; injection E as <-
           end.
  all: unfold reply; simpl.
  all: repeat match goal with E : ?f ?x = _ |- _ => is_var x; rewrite E; clear E end; simpl.
  all: first
    [ solve [left; repeat split]
    | solve [right; left; repeat split; eauto]
    | solve [right; right; left; repeat split; eauto]
    | solve [right; right; right; left; repeat split; eauto]
    | solve [right; right; right; right; left; repeat split; eauto]
    | right; right; right; right; right;
      do 5 eexists; repeat split; eauto; try discriminate; try congruence ].
Qed.

Lemma node_step_order (env : Env) (s : TravelState) (u : Update) :
  slots_in_order s -> travel_node env s = Ok u ->
  slots_in_order (apply_update s u) /\ slots_kept s (apply_update s u).
Proof.
  intros [I1 [I2 [I3 [I4 I5]]]] H.
  unfold slots_in_order, slots_kept, apply_update; simpl.
  destruct (node_shapes _ _ _ H) as
    [(T0 & U1 & U2 & U3 & U4 & U5 & U6 & U7)
    |[(T1 & [v U1] & U2 & U3 & U4 & U5 & U6 & U7)
    |[(T1 & T2 & U1 & [v U2] & U3 & U4 & U5 & U6 & U7)
    |[(T1 & T2 & T3 & U1 & U2 & (d & p & U3 & U4) & U5 & U6 & U7)
    |[(T1 & T2 & T3 & T4 & T5 & U1 & U2 & U3 & U4 & [v U5] & U6 & U7)
    |(dst & d & p & prefs & ws & U6 & U7 & U1 & U2 & U3 & U4 & U5 &
      T1 & T2 & T2' & T3 & T4 & T5 & T6 & T7)]]]]];
  rewrite ?U1, ?U2, ?U3, ?U4, ?U5, ?U6, ?U7; simpl.
  - (* no slot written *)
    repeat split; auto; tauto.
  - (* name *)
    repeat split; auto; try tauto.
    + intros Hd. rewrite (I1 Hd) in T1. discriminate T1.
    + intros Hn. rewrite Hn in T1. discriminate T1.
  - (* destination *)
    repeat split; auto; try tauto.
    + destruct I2 as [? | (d & p & _ & _ & Hd)]; [tauto|].
      rewrite Hd in T2. discriminate T2.
    + intros Hd. rewrite Hd in T2. discriminate T2.
  - (* length and group size *)
    assert (Hdp : days s = None /\ people s = None).
    { destruct I2 as [? | (d' & p' & Hd & Hp & _)]; [assumption|].
      rewrite Hd, Hp in T3. discriminate T3. }
    destruct Hdp as [Hd Hp]. rewrite Hd, Hp.
    repeat split; auto; try discriminate; try tauto.
    right. exists d, p. auto.
  - (* start date *)
    repeat split; auto; try tauto.
    + intros _. destruct (days s); discriminate.
    + intros Hp. rewrite (I4 Hp) in T5. discriminate T5.
    + intros Hs. rewrite Hs in T5. discriminate T5.
  - (* preferences and itinerary *)
    repeat split; auto; try tauto.
    all: intros Hx; exfalso;
      first [exact (T6 Hx) | exact (build_itinerary_nonempty _ _ _ _ _ Hx)].
Qed.

Lemma node_resolved (env : Env) (s : TravelState) (u : Update) :
  all_resolved s -> travel_node env s = Ok u ->
  exists dst d p ws,
    destination s = Some dst /\ days s = Some (S d) /\ people s = Some (S p) /\
    u_preferences u = Some (preferences s) /\
    u_itinerary u = Some (build_itinerary dst (S d) (S p) (preferences s) ws).
Proof.
  intros (A1 & A2 & A3 & A4 & A5 & A6) H.
  destruct (node_shapes _ _ _ H) as
    [(T0 & _)
    |[(T1 & _)
    |[(T1 & T2 & _)
    |[(T1 & T2 & T3 & _)
    |[(T1 & T2 & T3 & T4 & T5 & _)
    |(dst & d & p & prefs & ws & U6 & U7 & _ & _ & _ & _ & _ &
      _ & T2 & _ & T3 & T4 & _ & _ & T7)]]]]].
  - rewrite A1, A2, A3, A4, A5 in T0. simpl in T0.
    destruct (preferences s); [exact (False_ind _ (A6 eq_refl)) | discriminate T0].
  - congruence.
  - congruence.
  - rewrite A3, A4 in T3. discriminate T3.
  - congruence.
  - rewrite (T7 A6) in U6, U7. exists dst, d, p, ws. auto.
Qed.

Lemma slots_kept_refl (s : TravelState) : slots_kept s s.
Proof. repeat split; auto. Qed.

Lemma slots_kept_trans (s1 s2 s3 : TravelState) :
  slots_kept s1 s2 -> slots_kept s2 s3 -> slots_kept s1 s3.
Proof.
  intros (K1 & K2 & K3 & K4 & K5 & K6) (L1 & L2 & L3 & L4 & L5 & L6).
  repeat split.
  - intros H. rewrite L1; rewrite K1; auto.
  - intros H. rewrite L2; rewrite K2; auto.
  - intros H. rewrite L3; rewrite K3; auto.
  - intros H. rewrite L4; rewrite K4; auto.
  - intros H. rewrite L5; rewrite K5; auto.
  - intros H. rewrite L6; rewrite K6; auto.
Qed.

Lemma chat_step_order (env : Env) (s s' : TravelState) (m : string) :
  slots_in_order s -> chat env s m = Ok s' ->
  slots_in_order s' /\ slots_kept s s'.
Proof.
  intros I H. apply chat_inv in H as [u [-> Hu]].
  eapply node_step_order in Hu; [exact Hu | exact I].
Qed.

Lemma session_order (turns : list (Env * string)) :
  forall s s', slots_in_order s -> run_session s turns = Ok s' ->
  slots_in_order s' /\ slots_kept s s'.
Proof.
  induction turns as [|[env m] turns IH]; intros s s' I H; simpl in H.
  - injection H as <-. split; [exact I | apply slots_kept_refl].
  - unfold bind in H. destruct (chat env s m) as [s1|e] eqn:E; [|discriminate H].
    destruct (chat_step_order env s s1 m I E) as [I1 K1].
    destruct (IH s1 s' I1 H) as [I2 K2].
    split; [exact I2 | exact (slots_kept_trans _ _ _ K1 K2)].
Qed.

Lemma initial_session_order : slots_in_order initial_session.
Proof.
  unfold slots_in_order; simpl. repeat split; try discriminate; auto.
Qed.

Lemma order_itinerary (s : TravelState) :
  slots_in_order s -> (itinerary s <> [] <-> all_resolved s).
Proof.
  intros (I1 & I2 & I3 & I4 & I5). unfold all_resolved. split.
  - intros Hi. assert (Hp : preferences s <> []) by tauto.
    pose proof (I4 Hp) as Hs. pose proof (I3 Hs) as Hd.
    destruct I2 as [[Hd0 _] | (d & p & Hd' & Hp' & Ht)]; [contradiction|].
    rewrite Hd', Hp'. repeat split; auto.
  - intros (_ & _ & _ & _ & _ & Hp) Hi. tauto.
Qed.

(** C5, as the code has it: in every state a session reaches from the empty
    session, the slots are resolved in stage order (a slot only when all
    earlier ones are, length and size together, preferences and itinerary
    together), so the itinerary is non-empty exactly when name, destination,
    length, size, start date and preferences are all resolved; name,
    destination, length, size, start date and preferences, once resolved,
    keep their value in every later state; the itinerary is not kept: once
    everything is resolved, every further turn runs the itinerary stage again
    and stores a freshly composed itinerary. *)
Theorem C5_session_slots (turns1 turns2 : list (Env * string)) (s1 s2 : TravelState) :
  run_session initial_session turns1 = Ok s1 ->
  run_session s1 turns2 = Ok s2 ->
  slots_in_order s2 /\
  (itinerary s2 <> [] <-> all_resolved s2) /\
  slots_kept s1 s2 /\
  (all_resolved s2 -> forall env m s3, chat env s2 m = Ok s3 ->
     exists dst d p ws,
       destination s2 = Some dst /\ days s2 = Some (S d) /\ people s2 = Some (S p) /\
       preferences s3 = preferences s2 /\
       itinerary s3 = build_itinerary dst (S d) (S p) (preferences s2) ws).
Proof.
  intros H1 H2.
  destruct (session_order turns1 _ _ initial_session_order H1) as [I1 _].
  destruct (session_order turns2 _ _ I1 H2) as [I2 K2].
  split; [exact I2 | split; [exact (order_itinerary s2 I2) | split; [exact K2 |]]].
  intros A env m s3 H. apply chat_inv in H as [u [-> Hu]].
  eapply node_resolved in Hu as (dst & d & p & ws & Hd & Hdy & Hp & U6 & U7); [|exact A].
  exists dst, d, p, ws. unfold apply_update, upd; simpl.
  rewrite U6, U7. auto.
Qed.



(** ** The claims' theorems at concrete inputs *)

Lemma C2_one_reply_and_frame_witness :
  exists u, travel_node offline_env (at_preferences_stage UiEmpty "") = Ok u /\
    resolves_no_slot u = true /\
    (exists c, u_messages u = (messages (at_preferences_stage UiEmpty "") ++ [AI c])%list) /\
    u_ui u = Some PREFERENCE_HINT /\
    preferences (apply_update (at_preferences_stage UiEmpty "") u) = [].
Proof.
  destruct (travel_node offline_env (at_preferences_stage UiEmpty "")) as [u|e] eqn:H;
    [|vm_compute in H; discriminate H].
  destruct (C2_one_reply_and_frame _ _ _ H) as [Hm Hf].
  pose proof H as H'. vm_compute in H'. injection H' as <-.
  destruct (Hf eq_refl) as [_ (_ & _ & _ & _ & _ & _ & Hp & _)].
  eexists. split; [exact H|]. split; [reflexivity|].
  split; [exact Hm|]. split; [reflexivity | exact Hp].
Defined.

Lemma C3_two_numbers_assign_witness :
  (exists s', advance offline_env (at_length_stage "5 days and 2 people, 10") = Ok s' /\
              days s' = Some 5 /\ people s' = Some 2) /\
  (exists s', advance offline_env (at_length_stage "0 days and 2 people") = Ok s' /\
              days s' = None /\ people s' = None).
Proof.
  split.
  - destruct (C3_two_numbers_assign offline_env (at_length_stage "5 days and 2 people, 10")
                "A" "lex" "G" "oa" 5 2 [10]) as [Hpos _];
      [reflexivity | reflexivity | reflexivity | vm_compute; reflexivity |].
    destruct (Hpos ltac:(lia) ltac:(lia)) as [_ Hs]. exact Hs.
  - destruct (C3_two_numbers_assign offline_env (at_length_stage "0 days and 2 people")
                "A" "lex" "G" "oa" 0 2 []) as [_ Hzero];
      [reflexivity | reflexivity | reflexivity | vm_compute; reflexivity |].
    destruct (Hzero (or_introl eq_refl)) as [_ Hs]. exact Hs.
Defined.

Lemma C4_deterministic_before_itinerary_witness :
  advance (offline_env_pick 0) (at_length_stage "5 days")
  = advance (offline_env_pick 1) (at_length_stage "5 days").
Proof.
  apply C4_deterministic_before_itinerary. vm_compute. reflexivity.
Defined.

Lemma C5_session_slots_witness :
  run_session initial_session scenario_head = Ok scenario_mid /\
  run_session scenario_mid scenario_tail = Ok scenario_end /\
  itinerary scenario_end <> [] /\ all_resolved scenario_end /\
  slots_kept scenario_mid scenario_end.
Proof.
  assert (H1 : run_session initial_session scenario_head = Ok scenario_mid)
    by (vm_compute; reflexivity).
  assert (H2 : run_session scenario_mid scenario_tail = Ok scenario_end)
    by (vm_compute; reflexivity).
  assert (Hi : itinerary scenario_end <> []) by (vm_compute; discriminate).
  destruct (C5_session_slots _ _ _ _ H1 H2) as (_ & Hr & Hk & _).
  split; [exact H1|]. split; [exact H2|]. split; [exact Hi|].
  split; [exact (proj1 Hr Hi) | exact Hk].
Defined.

Lemma C6_itinerary_line_format_witness :
  List.length (build_itinerary "goa" 2 3 ["food"] []) = 2 /\
  nth 1 (build_itinerary "goa" 2 3 ["food"] []) EmptyString =
  spec_line "goa" "street food crawl" "weather details unavailable" 1 ++ spec_departure 3.
Proof.
  destruct (C6_itinerary_line_format "goa" 2 3 ["food"] []) as [HL Hn].
  split; [exact HL|]. rewrite (Hn 1 ltac:(lia)). reflexivity.
Defined.

Lemma C7_forecast_fallback_aggregates_witness :
  let w := {| w_date := "2025-03-01"; t_min := Some 25%Q; t_max := Some 31%Q;
              precip_prob := 60 |} in
  let es := day_entries (w_date w) three_hour_items in
  es <> [] /\
  (exists m, precip_prob w = py_round (m * 100)%Q /\ In m (entry_pops es) /\
             forall x, In x (entry_pops es) -> (x <= m)%Q).
Proof.
  intros w es.
  destruct (C7_forecast_fallback_aggregates env_forecast_3h (155 # 10)%Q (738 # 10)%Q 2
              (Some "2025-03-01") 200 three_hour_items
              [w; {| w_date := "2025-03-02"; t_min := Some 23%Q; t_max := Some 28%Q;
                     precip_prob := 0 |}])
    with (w := w) as (Hne & _ & _ & Hp);
    [discriminate | vm_compute; reflexivity | reflexivity | vm_compute; reflexivity
    | left; reflexivity |].
  split; [exact Hne | exact Hp].
Defined.

Lemma C8_preferences_stage_witness :
  parse_preferences (py_strip "food, Shopping ,  ") = ["food"; "shopping"] /\
  (exists s', advance offline_env (at_preferences_stage UiEmpty ",  ,") = Ok s' /\
              preferences s' = [] /\ ui s' = PREFERENCE_HINT).
Proof.
  destruct (C8_preferences_stage offline_env (at_preferences_stage PREFERENCE_HINT "food, Shopping ,  ")
              "A" "lex" "G" "oa" 4 1 "2" "025-03-01")
    as (Hparse & Hex & _ & _); try reflexivity.
  destruct (C8_preferences_stage offline_env (at_preferences_stage UiEmpty ",  ,")
              "A" "lex" "G" "oa" 4 1 "2" "025-03-01")
    as (_ & _ & Hempty & _); try reflexivity.
  split.
  - exact (eq_trans Hparse Hex).
  - apply Hempty. vm_compute. reflexivity.
Defined.

Lemma C9_activity_pool_cyclic_witness :
  exists activity rest1 rest4,
    nth 0 (build_itinerary "goa" 7 2 ["Food"] []) EmptyString
      = "Day 1: " ++ activity ++ " in " ++ rest1 /\
    nth 3 (build_itinerary "goa" 7 2 ["Food"] []) EmptyString
      = "Day 4: " ++ activity ++ " in " ++ rest4.
Proof.
  destruct C9_activity_pool_cyclic as (_ & _ & _ & _ & H).
  apply H. reflexivity.
Defined.

Lemma C10_zero_never_resolves_witness :
  exists s', advance offline_env (at_length_stage "5 days for 0 people") = Ok s' /\
             days s' = None /\ people s' = None.
Proof.
  destruct C10_zero_never_resolves as (_ & H & _).
  destruct (H offline_env (at_length_stage "5 days for 0 people") "A"%char "lex" "G"%char "oa")
    as [_ Hs]; [reflexivity | reflexivity | reflexivity | vm_compute; right; reflexivity |].
  exact Hs.
Defined.


(* ------------------------------------------------------------------ *)
(** ** Further properties of the dialog node and the server *)

Lemma node_one_ai (env : Env) (s : TravelState) (u : Update) :
  travel_node env s = Ok u -> exists c, u_messages u = (messages s ++ [AI c])%list.
Proof.
  intros H. split_node H; unfold reply; simpl; eexists; reflexivity.
Qed.

Lemma chat_messages (env : Env) (s s' : TravelState) (m : string) :
  chat env s m = Ok s' ->
  exists c, messages s' = (messages s ++ [Human m] ++ messages s ++ [Human m] ++ [AI c])%list.
Proof.
  intros H. destruct (chat_inv env s s' m H) as [u [-> Hu]].
  destruct (node_one_ai _ _ _ Hu) as [c Hc]. exists c.
  unfold apply_update; simpl. rewrite Hc; simpl. rewrite <- !app_assoc. reflexivity.
Qed.

(** The [messages] channel adds the node's whole returned transcript to the
    stored one, so every turn doubles the transcript and adds three entries
    (the human entry twice, the reply once). *)
Theorem transcript_doubles (turns : list (Env * string)) :
  forall s0 s, run_session s0 turns = Ok s ->
  List.length (messages s) + 3 = (List.length (messages s0) + 3) * 2 ^ List.length turns.
Proof.
  induction turns as [|[env m] turns IH]; intros s0 s H; simpl in H.
  - injection H as <-. simpl. lia.
  - unfold bind in H. destruct (chat env s0 m) as [s1|e] eqn:E; [|discriminate H].
    rewrite (IH s1 s H). destruct (chat_messages _ _ _ _ E) as [c Hc].
    rewrite Hc, !length_app. simpl. lia.
Qed.

(** An invocation that stops before the itinerary stage never raises: the
    only exceptions of [travel_node] come from [plan_trip]. *)
Theorem node_raises_only_in_itinerary_stage (env : Env) (s : TravelState) :
  reaches_itinerary_stage s = false -> exists u, travel_node env s = Ok u.
Proof.
  unfold travel_node, reaches_itinerary_stage, bind.
  repeat match goal with |- context [match ?x with _ => _ end] => destruct x eqn:? end;
    simpl; intros; eauto; try discriminate;
    try match goal with H : inr _ = inl _ |- _ => discriminate H end.
Qed.

Lemma sess_get_set_same (sid : string) (st : TravelState) (db : Sessions) :
  sess_get sid (sess_set sid st db) = Some st.
Proof.
  induction db as [|[k st'] db IH]; simpl.
  - rewrite String.eqb_refl. reflexivity.
  - destruct (String.eqb sid k) eqn:E; simpl; rewrite ?E; auto.
Qed.

Lemma sess_get_set_other (sid sid' : string) (st : TravelState) (db : Sessions) :
  sid' <> sid -> sess_get sid' (sess_set sid st db) = sess_get sid' db.
Proof.
  intros Hne. induction db as [|[k st'] db IH]; simpl.
  - destruct (String.eqb sid' sid) eqn:E; [apply String.eqb_eq in E; congruence | reflexivity].
  - destruct (String.eqb sid k) eqn:E; simpl.
    + apply String.eqb_eq in E. subst k.
      destruct (String.eqb sid' sid) eqn:E'; [apply String.eqb_eq in E'; congruence | reflexivity].
    + rewrite IH. reflexivity.
Qed.

Lemma latest_ai_snoc (ms : list msg) (c : string) : latest_ai (ms ++ [AI c])%list = c.
Proof. unfold latest_ai. rewrite rev_app_distr. reflexivity. Qed.

(** A successful request answers with the text of the assistant entry the
    node appended, which is the last entry of the stored transcript, and
    with the stored ui hint. *)
Theorem server_reply_is_last_entry (env : Env) (db db' : Sessions) (body : ChatIn)
  (r : string) (h : ui_hint) :
  server_chat env db body = (db', JSONReply r h) ->
  exists st, sess_get (session_id body) db' = Some st /\
             last (messages st) (Human EmptyString) = AI r /\ h = ui st.
Proof.
  unfold server_chat, advance, bind.
  set (t := add_human _ _).
  destruct (travel_node env t) as [u|e] eqn:Hu; intros H; [|discriminate H].
  injection H as <- <- <-.
  destruct (node_one_ai _ _ _ Hu) as [c Hc].
  exists (apply_update t u). rewrite sess_get_set_same. split; [reflexivity|].
  unfold apply_update; simpl. rewrite Hc, app_assoc, latest_ai_snoc, last_last.
  split; reflexivity.
Qed.

(** A request only ever writes the entry of its own session id. *)
Theorem server_sessions_isolated (env : Env) (db : Sessions) (body : ChatIn) (sid : string) :
  sid <> session_id body -> sess_get sid (fst (server_chat env db body)) = sess_get sid db.
Proof.
  intros Hne. unfold server_chat.
  destruct (advance env _); simpl; rewrite ?sess_get_set_other by exact Hne; reflexivity.
Qed.

(** A request whose invocation raises still leaves its turn in the session:
    the stored session is the one [setdefault] returned, with the
    preferences merged, the human entry appended and [input_text] set. *)
Theorem server_failed_request_keeps_turn (env : Env) (db db' : Sessions) (body : ChatIn)
  (e : exn) :
  server_chat env db body = (db', ServerError e) ->
  sess_get (session_id body) db' =
  Some (add_human (message body)
          (merge_preferences (body_preferences body)
             (match sess_get (session_id body) db with Some st => st | None => initial_session end))).
Proof.
  unfold server_chat. destruct (advance env _); intros H; [discriminate H|].
  injection H as <- _. apply sess_get_set_same.
Qed.

Lemma node_keeps_preferences (env : Env) (s : TravelState) (u : Update) :
  preferences s <> [] -> travel_node env s = Ok u ->
  preferences (apply_update s u) = preferences s.
Proof.
  intros Hp H. unfold apply_update, upd; simpl.
  destruct (node_shapes _ _ _ H) as
    [(_ & _ & _ & _ & _ & _ & U6 & _)
    |[(_ & _ & _ & _ & _ & _ & U6 & _)
    |[(_ & _ & _ & _ & _ & _ & _ & U6 & _)
    |[(_ & _ & _ & _ & _ & _ & _ & U6 & _)
    |[(_ & _ & _ & _ & _ & _ & _ & _ & _ & _ & U6 & _)
    |(dst & d & p & prefs & ws & U6 & _ & _ & _ & _ & _ & _ &
      _ & _ & _ & _ & _ & _ & _ & T7)]]]]];
    rewrite U6; auto.
Qed.

(** Preferences sent with a request replace the stored ones, trimmed and
    lower-cased but with blank entries kept, at whatever stage the session
    is, whether or not the invocation succeeds. *)
Theorem server_preferences_replace (env : Env) (db : Sessions) (body : ChatIn)
  (ps : list string) :
  body_preferences body = Some ps -> ps <> [] ->
  exists st, sess_get (session_id body) (fst (server_chat env db body)) = Some st /\
             preferences st = map clean_preference ps.
Proof.
  intros Hb Hne. unfold server_chat, advance, bind.
  set (s0 := match sess_get _ db with Some st => st | None => initial_session end).
  assert (Ht : preferences (add_human (message body) (merge_preferences (body_preferences body) s0))
               = map clean_preference ps).
  { rewrite Hb. destruct ps as [|p ps]; [contradiction|]. reflexivity. }
  destruct (travel_node env _) as [u|e] eqn:Hu; simpl; rewrite sess_get_set_same;
    eexists; split; try reflexivity.
  - rewrite (node_keeps_preferences _ _ _ ltac:(rewrite Ht; destruct ps; [contradiction | discriminate]) Hu).
    exact Ht.
  - exact Ht.
Qed.

(** Once name, destination, length, size and start date are stored, a
    request that carries preferences runs the itinerary stage at once, on
    those preferences, whatever its message text. *)
Theorem server_preferences_plan_now (env : Env) (db db' : Sessions) (body : ChatIn)
  (ps : list string) (s0 : TravelState) (r : string) (h : ui_hint) :
  body_preferences body = Some ps -> ps <> [] ->
  sess_get (session_id body) db = Some s0 ->
  truthy_str (name s0) = true -> truthy_str (destination s0) = true ->
  truthy_nat (days s0) = true -> truthy_nat (people s0) = true ->
  truthy_str (start_date s0) = true ->
  server_chat env db body = (db', JSONReply r h) ->
  exists st dst d p ws,
    sess_get (session_id body) db' = Some st /\
    destination s0 = Some dst /\ days s0 = Some (S d) /\ people s0 = Some (S p) /\
    preferences st = map clean_preference ps /\
    itinerary st = build_itinerary dst (S d) (S p) (map clean_preference ps) ws.
Proof.
  intros Hb Hne Hs0 A1 A2 A3 A4 A5. unfold server_chat, advance, bind. rewrite Hs0.
  set (t := add_human (message body) (merge_preferences (body_preferences body) s0)).
  assert (Ht : preferences t = map clean_preference ps).
  { unfold t. rewrite Hb. destruct ps as [|p ps]; [contradiction|]. reflexivity. }
  assert (A : all_resolved t).
  { unfold t, all_resolved. rewrite Hb. destruct ps as [|p0 ps]; [contradiction|].
    simpl. repeat split; auto. discriminate. }
  destruct (travel_node env t) as [u|e] eqn:Hu; intros H; [|discriminate H].
  injection H as <- _ _.
  destruct (node_resolved _ _ _ A Hu) as (dst & d & p & ws & Hd & Hdy & Hp & U6 & U7).
  exists (apply_update t u), dst, d, p, ws. rewrite sess_get_set_same.
  unfold t in Hd, Hdy, Hp. rewrite Hb in Hd, Hdy, Hp.
  destruct ps as [|p0 ps]; [contradiction|]. simpl in Hd, Hdy, Hp.
  unfold apply_update, upd; simpl. rewrite U6, U7, Ht.
  repeat split; auto.
Qed.

(* ------------------------------------------------------------------ *)
(** ** Further properties of the gateway *)

Lemma slice_from_length (sd : option string) (n : nat) (ws ws' : list weather) :
  List.length ws <= n -> slice_from sd n ws = Ok ws' -> List.length ws' <= n.
Proof.
  unfold slice_from, bind. intros Hl H.
  destruct sd as [sds|]; [|injection H as <-; exact Hl].
  destruct (truthy_str (Some sds)); [|injection H as <-; exact Hl].
  destruct (fromisoformat sds); [|discriminate H].
  destruct (first_on_or_after 0 _ ws); [|discriminate H].
  injection H as <-. rewrite length_firstn. lia.
Qed.

Lemma onecall_daily_some (env : Env) (lat lon : Q) (n : nat) (l : list weather) :
  onecall_daily env lat lon n = Ok (Some l) ->
  exists st daily, onecall_api env lat lon = Reply st (Some daily) /\
    l = firstn n (map oc_entry (firstn n daily)).
Proof.
  unfold onecall_daily. destruct (onecall_api env lat lon) as [|st [daily|]]; intros H;
    try discriminate H; destruct (negb (st =? 200)%Z); try discriminate H.
  destruct (map oc_entry (firstn n daily)) eqn:E; [discriminate H|].
  injection H as <-. rewrite <- E. eauto.
Qed.

Lemma forecast5_ok (env : Env) (lat lon : Q) (n : nat) (ws : list weather) :
  forecast5_aggregate env lat lon n = Ok ws ->
  exists st items, forecast_api env lat lon = Reply st (Some items) /\ ws = aggregate n items.
Proof.
  unfold forecast5_aggregate. destruct (forecast_api env lat lon) as [|st [items|]]; intros H;
    try discriminate H; destruct ((400 <=? st)%Z && (st <? 600)%Z); try discriminate H.
  injection H as <-. eauto.
Qed.

(** Where each day of [daily_weather]'s answer comes from: an entry of the
    One Call ["daily"] array, or the 3-hour aggregate. *)
Lemma daily_weather_source (env : Env) (lat lon : Q) (n : nat) (sd : option string)
  (ws : list weather) :
  daily_weather env lat lon n sd = Ok ws ->
  (ws = []) \/
  (exists st daily, onecall_api env lat lon = Reply st (Some daily) /\
     forall w, In w ws -> exists d, In d daily /\ w = oc_entry d) \/
  (exists st items, forecast_api env lat lon = Reply st (Some items) /\
     forall w, In w ws -> In w (aggregate n items)).
Proof.
  unfold daily_weather, bind.
  destruct (String.eqb (OPENWEATHER_API_KEY env) EmptyString).
  { intros H. injection H as <-. left. reflexivity. }
  destruct (onecall_daily env lat lon n) as [oc|e] eqn:Hoc; [|discriminate].
  destruct oc as [[|w0 l]|].
  2: { apply onecall_daily_some in Hoc as (st & daily & Hapi & Hl).
       intros H. right. left. exists st, daily. split; [exact Hapi|].
       intros w Hw. apply (slice_from_in _ _ _ _ _ H) in Hw. rewrite Hl in Hw.
       apply in_firstn_in, in_map_iff in Hw as [d [<- Hd]].
       exists d. split; [exact (in_firstn_in _ _ _ Hd) | reflexivity]. }
  all: destruct (forecast5_aggregate env lat lon n) as [f|e] eqn:Hf; [|discriminate];
       apply forecast5_ok in Hf as (st & items & Hapi & ->);
       intros H; right; right; exists st, items; split; [exact Hapi|];
       intros w Hw; exact (slice_from_in _ _ _ _ _ H Hw).
Qed.

(** [daily_weather] never returns more summaries than days asked for, on
    either provider's path and with or without a start date. *)
Theorem daily_weather_at_most_days (env : Env) (lat lon : Q) (n : nat) (sd : option string)
  (ws : list weather) :
  daily_weather env lat lon n sd = Ok ws -> List.length ws <= n.
Proof.
  unfold daily_weather, bind.
  destruct (String.eqb (OPENWEATHER_API_KEY env) EmptyString).
  { intros H. injection H as <-. simpl. lia. }
  destruct (onecall_daily env lat lon n) as [oc|e] eqn:Hoc; [|discriminate].
  destruct oc as [[|w0 l]|].
  2: { apply onecall_daily_some in Hoc as (st & daily & _ & Hl).
       intros H. refine (slice_from_length _ _ _ _ _ H). rewrite Hl, length_firstn. lia. }
  all: destruct (forecast5_aggregate env lat lon n) as [f|e] eqn:Hf; [|discriminate];
       apply forecast5_ok in Hf as (st & items & _ & ->);
       intros H; refine (slice_from_length _ _ _ _ _ H);
       unfold aggregate; rewrite length_firstn; lia.
Qed.

Lemma fun_fact_ok (env : Env) (place : string) : exists fact, fun_fact env place = Ok fact.
Proof.
  unfold fun_fact. destruct (hf_client env) as [client|]; eauto.
  destruct (client _) as [|t]; eauto. destruct (negb _); eauto.
Qed.

(** Without [OPENWEATHER_API_KEY], [plan_trip] makes no weather request and
    never raises, whatever the start date string: the itinerary is composed
    with no weather, and the opening carries the destination fact. *)
Theorem plan_trip_without_key (env : Env) (destination : string) (ndays people : nat)
  (prefs : list string) (sd : option string) :
  OPENWEATHER_API_KEY env = EmptyString ->
  exists fact, fun_fact env destination = Ok fact /\
    plan_trip env destination ndays people prefs sd =
    Ok ("Wow, " ++ py_title destination ++ " is a nice place — fun fact: " ++ fact,
        build_itinerary destination ndays people prefs []).
Proof.
  intros Hk. destruct (fun_fact_ok env destination) as [fact Hf].
  exists fact. split; [exact Hf|].
  unfold plan_trip, geocode, bind. rewrite Hf, Hk. reflexivity.
Qed.

Lemma py_round_between (a b : Z) (x : Q) :
  (inject_Z a <= x)%Q -> (x <= inject_Z b)%Q -> (a <= py_round x <= b)%Z.
Proof.
  intros Ha Hb. unfold py_round.
  assert (Hfa : (a <= Qfloor x)%Z) by (rewrite <- (Qfloor_Z a); apply Qfloor_resp_le; exact Ha).
  assert (Hfb : (Qfloor x <= b)%Z) by (rewrite <- (Qfloor_Z b); apply Qfloor_resp_le; exact Hb).
  assert (Hstep : ((1 # 2) <= x - inject_Z (Qfloor x))%Q -> (Qfloor x + 1 <= b)%Z).
  { intros Hd. destruct (Z.eq_dec (Qfloor x) b) as [E | E]; [|lia].
    exfalso. rewrite E in Hd. lra. }
  destruct (Qcompare (x - inject_Z (Qfloor x)) (1 # 2)) eqn:C.
  - apply Qeq_alt in C. specialize (Hstep ltac:(rewrite C; apply Qle_refl)).
    destruct (Z.even (Qfloor x)); lia.
  - lia.
  - apply Qgt_alt in C. specialize (Hstep (Qlt_le_weak _ _ C)). lia.
Qed.

Lemma pop_percent (p : option Q) :
  pop_ok p -> (0 <= py_round (match p with Some p => p | None => 0 end * 100)%Q <= 100)%Z.
Proof.
  intros H. apply (py_round_between 0 100).
  all: destruct p as [p|]; simpl in H |- *; unfold inject_Z; lra.
Qed.

(** If both providers report precipitation probabilities in [0, 1], every
    day summary [daily_weather] returns has a precipitation percentage
    between 0 and 100, on the One Call path (rounding of [pop * 100]) and on
    the 3-hour path (rounding of the day's maximum [pop * 100]). *)
Theorem daily_weather_precip_percent (env : Env) (lat lon : Q) (n : nat) (sd : option string)
  (ws : list weather) :
  (forall st daily, onecall_api env lat lon = Reply st (Some daily) ->
     Forall (fun d => pop_ok (oc_pop d)) daily) ->
  (forall st items, forecast_api env lat lon = Reply st (Some items) ->
     Forall (fun it => pop_ok (f_pop it)) items) ->
  daily_weather env lat lon n sd = Ok ws ->
  Forall (fun w => (0 <= precip_prob w <= 100)%Z) ws.
Proof.
  intros Hoc Hfc H. apply Forall_forall. intros w Hw.
  apply daily_weather_source in H as [-> | [(st & daily & Hapi & Hin) | (st & items & Hapi & Hin)]].
  - destruct Hw.
  - destruct (Hin w Hw) as [d [Hd ->]].
    apply pop_percent. exact (proj1 (Forall_forall _ _) (Hoc _ _ Hapi) d Hd).
  - apply Hin, in_aggregate in Hw as [Hne Hw]. rewrite Hw. simpl.
    rewrite push_all_spec. simpl.
    destruct (entry_pops (day_entries (w_date w) items)) as [|x xs] eqn:Ep; [lia|].
    destruct (py_max_spec x xs) as [Hmem _]. rewrite <- Ep in Hmem.
    unfold entry_pops in Hmem. apply in_map_iff in Hmem as [it [Hit Hmem]].
    unfold day_entries in Hmem. apply filter_In in Hmem as [Hmem _].
    rewrite <- Hit. apply pop_percent.
    exact (proj1 (Forall_forall _ _) (Hfc _ _ Hapi) it Hmem).
Qed.

Lemma str_ltb_irrefl (a : string) : str_ltb a a = false.
Proof. induction a as [|c a IH]; simpl; [reflexivity|]. rewrite Nat.ltb_irrefl. exact IH. Qed.

Lemma str_ltb_trans (a b c : string) :
  str_ltb a b = true -> str_ltb b c = true -> str_ltb a c = true.
Proof.
  revert b c. induction a as [|x a IH]; intros [|y b] [|z c]; simpl; try congruence.
  destruct (Nat.ltb_spec (code x) (code y)), (Nat.ltb_spec (code y) (code x)),
           (Nat.ltb_spec (code y) (code z)), (Nat.ltb_spec (code z) (code y)),
           (Nat.ltb_spec (code x) (code z)), (Nat.ltb_spec (code z) (code x));
    try lia; try congruence. apply IH.
Qed.

Lemma str_ltb_total (a b : string) :
  a <> b -> str_ltb a b = true \/ str_ltb b a = true.
Proof.
  revert b. induction a as [|x a IH]; intros [|y b] Hne; simpl; auto; try congruence.
  destruct (Nat.ltb_spec (code x) (code y)), (Nat.ltb_spec (code y) (code x)); auto; try lia.
  assert (x = y) as <-.
  { unfold code in *. rewrite <- (ascii_nat_embedding x), <- (ascii_nat_embedding y).
    f_equal. lia. }
  apply IH. congruence.
Qed.

Lemma in_insert_sorted_iff (x y : string) (l : list string) :
  In y (insert_sorted x l) <-> y = x \/ In y l.
Proof.
  split; [apply in_insert_sorted|].
  induction l as [|z l IH]; simpl; [intuition congruence|].
  destruct (str_ltb x z); simpl; intuition congruence.
Qed.

Lemma in_sorted_strings_iff (y : string) (l : list string) : In y (sorted_strings l) <-> In y l.
Proof.
  induction l as [|x l IH]; simpl; [tauto|].
  rewrite in_insert_sorted_iff, IH. intuition congruence.
Qed.

Lemma insert_sorted_sorted (x : string) (l : list string) :
  StronglySorted str_lt l -> ~ In x l -> StronglySorted str_lt (insert_sorted x l).
Proof.
  induction l as [|y l IH]; simpl; intros Hs Hx.
  - repeat constructor.
  - apply StronglySorted_inv in Hs as [Hs Hy].
    destruct (str_ltb x y) eqn:Exy.
    + constructor; [constructor; assumption|].
      constructor; [exact Exy|].
      apply Forall_forall. intros z Hz.
      exact (str_ltb_trans _ _ _ Exy (proj1 (Forall_forall _ _) Hy z Hz)).
    + destruct (str_ltb_total x y) as [H | H]; [intros ->; tauto | congruence |].
      constructor; [apply IH; tauto|].
      apply Forall_forall. intros z Hz. apply in_insert_sorted in Hz as [-> | Hz]; [exact H|].
      exact (proj1 (Forall_forall _ _) Hy z Hz).
Qed.

Lemma sorted_strings_sorted (l : list string) :
  NoDup l -> StronglySorted str_lt (sorted_strings l).
Proof.
  induction l as [|x l IH]; simpl; intros Hnd; [constructor|].
  apply NoDup_cons_iff in Hnd as [Hx Hnd].
  apply insert_sorted_sorted; [exact (IH Hnd)|].
  rewrite in_sorted_strings_iff. exact Hx.
Qed.

Lemma sorted_app {A} (R : A -> A -> Prop) (l1 l2 : list A) :
  StronglySorted R (l1 ++ l2) ->
  StronglySorted R l1 /\ StronglySorted R l2 /\ (forall x y, In x l1 -> In y l2 -> R x y).
Proof.
  induction l1 as [|a l1 IH]; simpl; intros H.
  - split; [constructor | split; [exact H | tauto]].
  - apply StronglySorted_inv in H as [H Ha]. destruct (IH H) as (H1 & H2 & H12).
    rewrite Forall_app in Ha. destruct Ha as [Ha1 Ha2].
    split; [constructor; assumption|]. split; [exact H2|].
    intros x y [<- | Hx] Hy; [exact (proj1 (Forall_forall _ _) Ha2 y Hy) | exact (H12 x y Hx Hy)].
Qed.

Lemma keys_setdefault (k : string) (f : bucket -> bucket) (d : list (string * bucket)) :
  NoDup (map fst d) ->
  NoDup (map fst (setdefault_update k f d)) /\
  (forall k', In k' (map fst (setdefault_update k f d)) <-> k' = k \/ In k' (map fst d)).
Proof.
  induction d as [|[k1 b1] d IH]; simpl; intros Hnd.
  - split; [repeat constructor; tauto | intuition].
  - apply NoDup_cons_iff in Hnd as [Hk1 Hnd].
    destruct (String.eqb_spec k k1) as [<- | Hne]; simpl.
    + split; [constructor; assumption | intuition congruence].
    + destruct (IH Hnd) as [Hnd' Hin']. split.
      * constructor; [rewrite Hin'; intuition congruence | exact Hnd'].
      * intros k'. rewrite Hin'. tauto.
Qed.

Lemma group_keys_nodup (items : list fc_item) (acc : list (string * bucket)) :
  NoDup (map fst acc) -> NoDup (map fst (fold_left by_day_step items acc)).
Proof.
  revert acc. induction items as [|it items IH]; intros acc Hnd; simpl; [exact Hnd|].
  apply IH. unfold by_day_step. destruct (item_key it); [|exact Hnd].
  exact (proj1 (keys_setdefault _ _ _ Hnd)).
Qed.

Lemma lookup_some_in (k : string) (b : bucket) (d : list (string * bucket)) :
  lookup k d = Some b -> In k (map fst d).
Proof.
  induction d as [|[k1 b1] d IH]; simpl; [discriminate|].
  destruct (String.eqb_spec k k1) as [<- | _]; auto.
Qed.

Lemma group_keys_iff (k : string) (items : list fc_item) :
  In k (map fst (group_by_day items)) <-> day_entries k items <> [].
Proof.
  unfold group_by_day. split.
  - intros H. destruct (lookup_in_keys _ _ H) as [b Hb].
    rewrite lookup_group in Hb. simpl in Hb. destruct (day_entries k items); congruence.
  - intros H. destruct (day_entries k items) as [|e es] eqn:E; [congruence|].
    apply (lookup_some_in k (push_all (e :: es) empty_bucket)).
    rewrite lookup_group, E. reflexivity.
Qed.

(** The days [_forecast5_aggregate] summarises are the earliest ones of the
    3-hour list: in strictly increasing string order (so without repeats),
    each one a day some dated entry falls on, and a dated day is left out only
    when [days] summaries are already listed, all of them on earlier days. *)
Theorem aggregate_earliest_days (n : nat) (items : list fc_item) :
  StronglySorted str_lt (map w_date (aggregate n items)) /\
  (forall k, In k (map w_date (aggregate n items)) -> day_entries k items <> []) /\
  (forall k, day_entries k items <> [] -> ~ In k (map w_date (aggregate n items)) ->
     List.length (aggregate n items) = n /\
     Forall (fun d => str_lt d k) (map w_date (aggregate n items))).
Proof.
  set (S := sorted_strings (map fst (group_by_day items))).
  assert (Hds : map w_date (aggregate n items) = firstn n S).
  { unfold aggregate. fold S. rewrite firstn_map, map_map, firstn_firstn, Nat.min_id.
    simpl. apply map_id. }
  assert (HS : StronglySorted str_lt S).
  { apply sorted_strings_sorted, group_keys_nodup. constructor. }
  rewrite <- (firstn_skipn n S) in HS. apply sorted_app in HS as (H1 & _ & H12).
  rewrite Hds. split; [exact H1|]. split.
  - intros k Hk. apply in_firstn_in in Hk. unfold S in Hk.
    rewrite in_sorted_strings_iff, group_keys_iff in Hk. exact Hk.
  - intros k Hk Hnot.
    rewrite <- group_keys_iff, <- in_sorted_strings_iff in Hk. fold S in Hk.
    rewrite <- (firstn_skipn n S) in Hk. apply in_app_or in Hk as [Hk | Hk]; [contradiction|].
    split.
    + rewrite <- (length_map w_date), Hds, length_firstn.
      assert (n < List.length S).
      { destruct (Nat.lt_ge_cases n (List.length S)) as [|Hge]; [assumption|].
        rewrite skipn_all2 in Hk by exact Hge. destruct Hk. }
      lia.
    + apply Forall_forall. intros d Hd. exact (H12 d k Hd Hk).
Qed.

Lemma random_choice_in (env : Env) (xs : list string) :
  xs <> [] -> In (random_choice env xs) xs.
Proof.
  intros H. unfold random_choice. apply nth_In. apply Nat.mod_upper_bound.
  destruct xs; [contradiction | discriminate].
Qed.

(** [fun_fact] never raises, and its answer is one of three things: the
    stripped, non-blank text of the generative backend; for a place that
    reads "goa" once stripped and lower-cased, one of the curated Goa facts;
    otherwise the generic sentence about the title-cased place. *)
Theorem fun_fact_sources (env : Env) (place : string) :
  exists fact, fun_fact env place = Ok fact /\
  ((exists client prompt text, hf_client env = Some client /\ client prompt = HF_text text /\
      py_strip text <> EmptyString /\ fact = py_strip text) \/
   (py_lower (py_strip place) = "goa" /\ In fact FUN_FACTS_goa) \/
   (py_lower (py_strip place) <> "goa" /\
    fact = py_title place ++ " has a rich culture and popular local spots worth exploring.")).
Proof.
  assert (Hfb : (py_lower (py_strip place) = "goa" /\ In (fun_fact_fallback env place) FUN_FACTS_goa) \/
     (py_lower (py_strip place) <> "goa" /\ fun_fact_fallback env place =
        py_title place ++ " has a rich culture and popular local spots worth exploring.")).
  { unfold fun_fact_fallback, FUN_FACTS.
    destruct (String.eqb_spec (py_lower (py_strip place)) "goa") as [E | E].
    - left. split; [exact E|]. apply random_choice_in. discriminate.
    - right. split; [exact E | reflexivity]. }
  unfold fun_fact. destruct (hf_client env) as [client|] eqn:Hc.
  - set (prompt := "Give one short, accurate fun fact about " ++ place ++ " for travelers. "
                    ++ "One sentence only, no emojis.").
    destruct (client prompt) as [|text] eqn:Ht.
    + eexists. split; [reflexivity | right; exact Hfb].
    + destruct (String.eqb_spec (py_strip text) EmptyString) as [E | E]; simpl.
      * eexists. split; [reflexivity | right; exact Hfb].
      * eexists. split; [reflexivity|]. left. exists client, prompt, text. auto.
  - eexists. split; [reflexivity | right; exact Hfb].
Qed.

(** [str(n)] digits followed by the rest of a text: [_NUM_RE] reads back [n]. *)
Lemma runs_digit (d : nat) (cur : option nat) (rest : string) :
  d < 10 ->
  find_digit_runs cur (String (ascii_of_nat (48 + d)) rest) =
  find_digit_runs (Some (10 * match cur with Some v => v | None => 0 end + d)) rest.
Proof.
  intros H. remember (ascii_of_nat (48 + d)) as c eqn:Ec.
  assert (Hc : code c = 48 + d) by (subst c; unfold code; apply nat_ascii_embedding; lia).
  cbn [find_digit_runs]. unfold is_digit. rewrite Hc.
  replace ((48 <=? 48 + d)%nat && (48 + d <=? 57)%nat) with true
    by (symmetry; apply andb_true_intro; split; apply Nat.leb_le; lia).
  do 2 f_equal. lia.
Qed.

Lemma runs_digits_rev (fuel n : nat) (cur : option nat) (rest : string) :
  n < fuel -> (cur = None \/ cur = Some 0) ->
  find_digit_runs cur (digits_rev fuel n ++ rest) = find_digit_runs (Some n) rest.
Proof.
  revert n cur rest. induction fuel as [|f IH]; intros n cur rest Hn Hcur; [lia|].
  cbn [digits_rev]. pose proof (Nat.mod_upper_bound n 10 ltac:(lia)) as Hm.
  destruct (Nat.ltb_spec n 10) as [Hlt | Hge].
  - cbn [append]. rewrite runs_digit by exact Hm. rewrite Nat.mod_small by exact Hlt.
    destruct Hcur as [-> | ->]; reflexivity.
  - rewrite str_app_assoc, IH; [| |exact Hcur].
    + cbn [append]. rewrite runs_digit by exact Hm. f_equal. f_equal.
      pose proof (Nat.div_mod_eq n 10). lia.
    + assert (n / 10 < n) by (apply Nat.div_lt; lia). lia.
Qed.

Lemma runs_show_nat (n : nat) (rest : string) :
  find_digit_runs None (show_nat n ++ rest) = find_digit_runs (Some n) rest.
Proof. apply runs_digits_rev; auto. Qed.

Lemma runs_skip_none (p rest : string) :
  no_digit p = true -> find_digit_runs None (p ++ rest) = find_digit_runs None rest.
Proof.
  induction p as [|c p IH]; simpl; [reflexivity|].
  intros H. apply andb_true_iff in H as [Hc Hp]. destruct (is_digit c); [discriminate|]. auto.
Qed.

Lemma runs_close (n : nat) (p rest : string) :
  p <> EmptyString -> no_digit p = true ->
  find_digit_runs (Some n) (p ++ rest) = n :: find_digit_runs None rest.
Proof.
  destruct p as [|c p]; [congruence|]. simpl. intros _ H.
  apply andb_true_iff in H as [Hc Hp]. destruct (is_digit c); [discriminate|].
  f_equal. apply runs_skip_none, Hp.
Qed.

Lemma runs_end (p : string) (n : nat) :
  no_digit p = true ->
  find_digit_runs None p = [] /\ find_digit_runs (Some n) p = [n].
Proof.
  intros H. split.
  - rewrite <- (str_app_nil_r p), runs_skip_none by exact H. reflexivity.
  - destruct p as [|c p]; [reflexivity|].
    rewrite <- (str_app_nil_r (String c p)), runs_close by (discriminate || exact H). reflexivity.
Qed.

(** [_extract_numbers] reads back numbers written with [str]: a text made of
    the decimal renderings of [ns] joined by a non-empty separator without
    digits, between a prefix and a suffix without digits, gives exactly [ns]. *)
Theorem extract_numbers_show (pre sep post : string) (ns : list nat) :
  no_digit pre = true -> no_digit post = true ->
  sep <> EmptyString -> no_digit sep = true ->
  extract_numbers (pre ++ py_join sep (map show_nat ns) ++ post) = ns.
Proof.
  intros Hpre Hpost Hsep Hsepd. unfold extract_numbers.
  rewrite runs_skip_none by exact Hpre.
  induction ns as [|x ns IH].
  - exact (proj1 (runs_end post 0 Hpost)).
  - destruct ns as [|y ns].
    + simpl. rewrite runs_show_nat. exact (proj2 (runs_end post x Hpost)).
    + change (py_join sep (map show_nat (x :: y :: ns)))
        with (show_nat x ++ sep ++ py_join sep (map show_nat (y :: ns))).
      rewrite !str_app_assoc, runs_show_nat, runs_close by assumption.
      f_equal. exact IH.
Qed.

Lemma has_char_app (c : ascii) (a b : string) :
  has_char c (a ++ b) = has_char c a || has_char c b.
Proof. induction a as [|d a IH]; simpl; [reflexivity|]. rewrite IH, orb_assoc. reflexivity. Qed.

Lemma has_char_list (c : ascii) (s : string) :
  has_char c s = existsb (fun d => Ascii.eqb d c) (list_ascii_of_string s).
Proof. induction s as [|d s IH]; simpl; [reflexivity|]. rewrite IH. reflexivity. Qed.

Lemma has_char_rev_str (c : ascii) (s : string) : has_char c (rev_str s) = has_char c s.
Proof.
  unfold rev_str. rewrite !has_char_list, list_ascii_of_string_of_list_ascii.
  apply eq_true_iff_eq. rewrite !existsb_exists.
  split; intros [x [Hx Hxc]]; exists x; (split; [|exact Hxc]).
  - rewrite <- in_rev in Hx. exact Hx.
  - rewrite <- in_rev. exact Hx.
Qed.

Lemma has_char_lstrip (c : ascii) (s : string) : has_char c (lstrip s) = true -> has_char c s = true.
Proof.
  induction s as [|d s IH]; simpl; [discriminate|].
  destruct (is_space d); simpl; [intros H; rewrite IH by exact H; apply orb_true_r | exact (fun H => H)].
Qed.

Lemma has_char_strip (c : ascii) (s : string) : has_char c (py_strip s) = true -> has_char c s = true.
Proof.
  unfold py_strip. rewrite has_char_rev_str. intros H.
  apply has_char_lstrip. rewrite <- has_char_rev_str. apply has_char_lstrip. exact H.
Qed.

Lemma to_lower_idem (c : ascii) : to_lower (to_lower c) = to_lower c.
Proof. destruct c as [[] [] [] [] [] [] [] []]; reflexivity. Qed.

Lemma to_lower_comma (c : ascii) : Ascii.eqb (to_lower c) "," = Ascii.eqb c ",".
Proof. destruct c as [[] [] [] [] [] [] [] []]; reflexivity. Qed.

Lemma py_lower_idem (s : string) : py_lower (py_lower s) = py_lower s.
Proof. unfold py_lower. induction s as [|c s IH]; simpl; [reflexivity|]. rewrite to_lower_idem, IH. reflexivity. Qed.

Lemma py_lower_comma (s : string) : has_char "," (py_lower s) = has_char "," s.
Proof. unfold py_lower. induction s as [|c s IH]; simpl; [reflexivity|]. rewrite to_lower_comma, IH. reflexivity. Qed.

Lemma py_lower_empty (s : string) : py_lower s = EmptyString -> s = EmptyString.
Proof. destruct s; [reflexivity | discriminate]. Qed.

Lemma split_acc_no_sep (sep : ascii) (cur s p : string) :
  has_char sep cur = false -> In p (split_acc sep cur s) -> has_char sep p = false.
Proof.
  revert cur. induction s as [|c s IH]; intros cur Hcur; simpl.
  - intros [<- | []]. exact Hcur.
  - destruct (Ascii.eqb_spec c sep) as [-> | Hne].
    + intros [<- | H]; [exact Hcur | exact (IH EmptyString eq_refl H)].
    + apply IH. rewrite has_char_app, Hcur. simpl.
      destruct (Ascii.eqb_spec c sep); [contradiction | reflexivity].
Qed.

(** Every preference stage 5 parses from the user's text is non-empty,
    already lower-case, and free of commas: the comma-separated pieces are
    stripped, the blank ones dropped, and the rest lower-cased. *)
Theorem parse_preferences_clean (user_text p : string) :
  In p (parse_preferences user_text) ->
  p <> EmptyString /\ py_lower p = p /\ has_char "," p = false.
Proof.
  unfold parse_preferences. destruct user_text as [|c t]; [intros []|].
  intros H. apply in_map_iff in H as [x [<- Hx]]. apply filter_In in Hx as [Hx Hne].
  split; [|split].
  - intros E. apply py_lower_empty in E. rewrite E in Hne. discriminate.
  - apply py_lower_idem.
  - rewrite py_lower_comma. destruct (has_char "," (py_strip x)) eqn:E; [|reflexivity].
    apply has_char_strip in E. rewrite (split_acc_no_sep _ EmptyString _ _ eq_refl Hx) in E. discriminate.
Qed.

Lemma first_on_or_after_spec (i : nat) (sd : Z * Z * Z) (ws : list weather) (k : nat) :
  first_on_or_after i sd ws = Ok k ->
  (exists pre w post, ws = (pre ++ w :: post)%list /\ Forall (dated_before sd) pre /\
     dated_on_or_after sd w /\ k = i + List.length pre) \/
  (Forall (dated_before sd) ws /\ k = 0).
Proof.
  revert i. induction ws as [|w ws IH]; intros i H; simpl in H.
  - injection H as <-. right. split; [constructor | reflexivity].
  - destruct (fromisoformat (w_date w)) as [d|] eqn:Ed; [|discriminate H].
    destruct (date_geb d sd) eqn:Eg.
    + injection H as <-. left. exists [], w, ws. simpl.
      split; [reflexivity|]. split; [constructor|]. split; [exists d; auto | lia].
    + apply IH in H as [(pre & w' & post & -> & Hpre & Hw' & ->) | [Hall ->]].
      * left. exists (w :: pre), w', post. simpl.
        split; [reflexivity|]. split; [constructor; [exists d; auto | exact Hpre]|].
        split; [exact Hw' | lia].
      * right. split; [constructor; [exists d; auto | exact Hall] | reflexivity].
Qed.

Lemma skipn_length_app {A} (l1 l2 : list A) : skipn (List.length l1) (l1 ++ l2)%list = l2.
Proof. induction l1 as [|x l1 IH]; simpl; [reflexivity | exact IH]. Qed.

(** With a valid ISO start date, [daily_weather]'s slicing keeps at most
    [days] summaries starting at the first one dated on or after the start
    date, all earlier ones being dated before it; when every summary is dated
    before the start date, [next(..., 0)] falls back to index 0 and the first
    [days] summaries, all before the trip, are kept. *)
Theorem slice_from_start_date (sds : string) (sd : Z * Z * Z) (n : nat) (ws ws' : list weather) :
  fromisoformat sds = Some sd ->
  slice_from (Some sds) n ws = Ok ws' ->
  (exists pre w post, ws = (pre ++ w :: post)%list /\ Forall (dated_before sd) pre /\
     dated_on_or_after sd w /\ ws' = firstn n (w :: post)) \/
  (Forall (dated_before sd) ws /\ ws' = firstn n ws).
Proof.
  intros Hsd H. unfold slice_from, bind in H.
  destruct sds as [|c t]; [discriminate Hsd|]. simpl truthy_str in H.
  rewrite Hsd in H.
  destruct (first_on_or_after 0 sd ws) as [k|e] eqn:Hk; [|discriminate H].
  injection H as <-.
  apply first_on_or_after_spec in Hk as [(pre & w & post & -> & Hpre & Hw & ->) | [Hall ->]].
  - left. exists pre, w, post. simpl. rewrite skipn_length_app. auto.
  - right. auto.
Qed.

(** The composed plan does not depend on the case of the preferences:
    [build_itinerary] lower-cases them before looking up activities. *)
Theorem build_itinerary_case_insensitive (destination : string) (ndays people : nat)
  (prefs : list string) (ws : list weather) :
  build_itinerary destination ndays people (map py_lower prefs) ws =
  build_itinerary destination ndays people prefs ws.
Proof.
  unfold build_itinerary, activity_pool. rewrite map_map.
  rewrite (map_ext (fun x => py_lower (py_lower x)) py_lower) by apply py_lower_idem.
  reflexivity.
Qed.

Lemma all_from_spec (p : Z -> bool) (k : nat) (z0 z : Z) :
  all_from p k z0 = true -> (z0 <= z < z0 + Z.of_nat k)%Z -> p z = true.
Proof.
  revert z0. induction k as [|k IH]; simpl; intros z0 H Hz; [lia|].
  apply andb_true_iff in H as [Hk Hrest].
  destruct (Z.eq_dec z z0) as [-> | Hne]; [exact Hk|].
  apply (IH (z0 + 1)%Z); [exact Hrest | lia].
Qed.



Lemma doe_all_valid :
  all_from (fun doe => valid_date (civil_of_doe doe)) (Z.to_nat 146097) 0 = true.
Proof. vm_compute. reflexivity. Qed.

Lemma pad4_all : all_from (pad_reads_back 4) (Z.to_nat 9999) 1 = true.
Proof. vm_compute. reflexivity. Qed.

Lemma pad2_all : all_from (pad_reads_back 2) (Z.to_nat 31) 1 = true.
Proof. vm_compute. reflexivity. Qed.

Lemma days_in_month_400 (y k m : Z) : days_in_month (y + k * 400) m = days_in_month y m.
Proof.
  unfold days_in_month, is_leap.
  replace (y + k * 400)%Z with (y + (k * 100) * 4)%Z by ring. rewrite Z_mod_plus_full.
  replace (y + k * 100 * 4)%Z with (y + (k * 4) * 100)%Z by ring. rewrite Z_mod_plus_full.
  replace (y + k * 4 * 100)%Z with (y + k * 400)%Z by ring. rewrite Z_mod_plus_full.
  reflexivity.
Qed.

Lemma civil_from_days_era (z : Z) :
  civil_from_days z =
  let '(y, m, d) := civil_of_doe ((z + 719468) mod 146097) in
  (y + (z + 719468) / 146097 * 400, m, d)%Z.
Proof.
  unfold civil_from_days, civil_of_doe.
  set (zz := (z + 719468)%Z). set (era := (zz / 146097)%Z).
  replace (zz - era * 146097)%Z with (zz mod 146097)%Z
    by (unfold era; rewrite Z.mod_eq by lia; ring).
  set (doe := (zz mod 146097)%Z).
  cbv beta zeta iota.
  match goal with |- context [if ?c then _ else _] => destruct c end.
  - f_equal. f_equal. ring.
  - reflexivity.
Qed.

(** Every day count maps to a valid calendar date. *)
Lemma civil_from_days_valid (z : Z) : valid_date (civil_from_days z) = true.
Proof.
  rewrite civil_from_days_era.
  assert (Hr : (0 <= (z + 719468) mod 146097 < 0 + Z.of_nat (Z.to_nat 146097))%Z)
    by (rewrite Z2Nat.id by lia; pose proof (Z.mod_pos_bound (z + 719468) 146097); lia).
  pose proof (all_from_spec _ _ _ _ doe_all_valid Hr) as H. cbv beta in H.
  destruct (civil_of_doe ((z + 719468) mod 146097)) as [[y m] d].
  unfold valid_date in *. rewrite days_in_month_400. exact H.
Qed.

Lemma list_ascii_app (a b : string) :
  list_ascii_of_string (a ++ b) = (list_ascii_of_string a ++ list_ascii_of_string b)%list.
Proof. induction a as [|c a IH]; simpl; [reflexivity | rewrite IH; reflexivity]. Qed.

Lemma pad_digits (w k : nat) (lo v : Z) :
  all_from (pad_reads_back w) k lo = true -> (lo <= v < lo + Z.of_nat k)%Z ->
  List.length (list_ascii_of_string (pad w v)) = w /\
  digits_val (list_ascii_of_string (pad w v)) = Some v.
Proof.
  intros Hall Hv. pose proof (all_from_spec _ _ _ _ Hall Hv) as H.
  unfold pad_reads_back in H. apply andb_true_iff in H as [Hl Hd].
  apply Nat.eqb_eq in Hl. split; [exact Hl|].
  destruct (digits_val _) as [v'|]; [|discriminate Hd].
  apply Z.eqb_eq in Hd. congruence.
Qed.

(** [date.fromisoformat] reads back the [%Y-%m-%d] rendering of every valid
    date with a four-digit year. *)
Lemma fromisoformat_fmt_date (y m d : Z) :
  (1 <= y <= 9999)%Z -> valid_date (y, m, d) = true ->
  fromisoformat (fmt_date (y, m, d)) = Some (y, m, d).
Proof.
  intros Hy Hv. pose proof Hv as Hv'. unfold valid_date in Hv'.
  repeat rewrite andb_true_iff in Hv'. destruct Hv' as [[[Hm1 Hm2] Hd1] Hd2].
  rewrite Z.leb_le in Hm1, Hm2, Hd1, Hd2.
  assert (Hdm : (days_in_month y m <= 31)%Z)
    by (unfold days_in_month; repeat match goal with |- context [if ?c then _ else _] => destruct c end; lia).
  destruct (pad_digits 4 (Z.to_nat 9999) 1 y pad4_all ltac:(rewrite Z2Nat.id; lia)) as [Ly Vy].
  destruct (pad_digits 2 (Z.to_nat 31) 1 m pad2_all ltac:(rewrite Z2Nat.id; lia)) as [Lm Vm].
  destruct (pad_digits 2 (Z.to_nat 31) 1 d pad2_all ltac:(rewrite Z2Nat.id; lia)) as [Ld Vd].
  unfold fromisoformat, fmt_date. rewrite !list_ascii_app.
  destruct (list_ascii_of_string (pad 4 y)) as [|y1 [|y2 [|y3 [|y4 [|]]]]]; try discriminate Ly.
  destruct (list_ascii_of_string (pad 2 m)) as [|m1 [|m2 [|]]]; try discriminate Lm.
  destruct (list_ascii_of_string (pad 2 d)) as [|d1 [|d2 [|]]]; try discriminate Ld.
  cbn [app list_ascii_of_string]. rewrite Vy, Vm, Vd.
  replace ((1 <=? y)%Z && (1 <=? m)%Z && (m <=? 12)%Z && (1 <=? d)%Z && (d <=? days_in_month y m)%Z)
    with true; [reflexivity|].
  symmetry. repeat rewrite andb_true_iff. rewrite !Z.leb_le. lia.
Qed.

Lemma fromisoformat_utc_date (ts : Z) :
  (1 <= utc_year ts <= 9999)%Z ->
  fromisoformat (utc_date_of_timestamp ts) = Some (civil_from_days (ts / 86400)).
Proof.
  unfold utc_year, utc_date_of_timestamp. intros Hy.
  pose proof (civil_from_days_valid (ts / 86400)) as Hv.
  destruct (civil_from_days (ts / 86400)) as [[y m] d]. simpl in Hy.
  apply fromisoformat_fmt_date; assumption.
Qed.

(** Every date [_onecall_daily] writes for a timestamp with a four-digit
    year parses back with [date.fromisoformat], to the day the timestamp
    falls on. *)
Theorem utc_date_of_timestamp_parses (ts : Z) :
  (1 <= utc_year ts <= 9999)%Z ->
  fromisoformat (utc_date_of_timestamp ts) = Some (civil_from_days (ts / 86400)).
Proof. exact (fromisoformat_utc_date ts). Qed.

Lemma first_on_or_after_ok (i : nat) (sd : Z * Z * Z) (ws : list weather) :
  (forall w, In w ws -> fromisoformat (w_date w) <> None) ->
  exists k, first_on_or_after i sd ws = Ok k.
Proof.
  revert i. induction ws as [|w ws IH]; intros i H; simpl; [eauto|].
  destruct (fromisoformat (w_date w)) as [d|] eqn:E; [|exfalso; exact (H w (or_introl eq_refl) E)].
  destruct (date_geb d sd); [eauto|]. apply IH. intros w' Hw'. apply H. right. exact Hw'.
Qed.

(** When One Call answers with daily entries whose timestamps have
    four-digit years, [daily_weather] does not raise for any start date that
    is absent, empty or valid ISO: the provider's dates always parse. *)
Theorem daily_weather_onecall_no_raise (env : Env) (lat lon : Q) (n : nat)
  (start_date : option string) (daily : list oc_day) :
  OPENWEATHER_API_KEY env <> EmptyString ->
  onecall_api env lat lon = Reply 200 (Some daily) ->
  firstn n daily <> [] ->
  Forall (fun d => (1 <= utc_year (oc_dt d) <= 9999)%Z) daily ->
  (forall sds, start_date = Some sds -> sds <> EmptyString -> fromisoformat sds <> None) ->
  exists ws, daily_weather env lat lon n start_date = Ok ws /\
    forall w, In w ws -> In w (map oc_entry (firstn n daily)).
Proof.
  intros Hkey Hapi Hne Hyears Hsd.
  unfold daily_weather, bind. destruct (String.eqb_spec (OPENWEATHER_API_KEY env) EmptyString);
    [contradiction|].
  unfold onecall_daily. rewrite Hapi. simpl negb. cbv iota.
  assert (Hn : n <> 0) by (intros ->; apply Hne; reflexivity).
  destruct (map oc_entry (firstn n daily)) as [|w0 l] eqn:Eout.
  { apply (f_equal (@List.length weather)) in Eout. rewrite length_map in Eout.
    destruct (firstn n daily); [contradiction | discriminate]. }
  destruct n as [|n']; [contradiction|].
  change (firstn (S n') (w0 :: l)) with (w0 :: firstn n' l).
  assert (HL : forall w, In w (w0 :: firstn n' l) -> In w (w0 :: l)).
  { intros w Hw. destruct Hw as [<- | Hw]; [left; reflexivity|].
    right. exact (in_firstn_in _ _ _ Hw). }
  assert (Hdates : forall w, In w (w0 :: firstn n' l) -> fromisoformat (w_date w) <> None).
  { intros w Hw. apply HL in Hw. rewrite <- Eout in Hw.
    apply in_map_iff in Hw as [d [<- Hd]]. apply in_firstn_in in Hd. simpl.
    rewrite fromisoformat_utc_date; [discriminate|].
    exact (proj1 (Forall_forall _ _) Hyears d Hd). }
  unfold slice_from, bind.
  destruct start_date as [sds|].
  2: { eexists. split; [reflexivity | exact HL]. }
  destruct sds as [|c t].
  { eexists. split; [reflexivity | exact HL]. }
  simpl truthy_str. cbv iota.
  destruct (fromisoformat (String c t)) as [sd|] eqn:Esd;
    [|exfalso; exact (Hsd _ eq_refl ltac:(discriminate) Esd)].
  destruct (first_on_or_after_ok 0 sd _ Hdates) as [k Hk]. rewrite Hk.
  eexists. split; [reflexivity|]. intros w Hw.
  exact (HL w (in_skipn_in _ _ _ (in_firstn_in _ _ _ Hw))).
Qed.

(* ------------------------------------------------------------------ *)
(** ** Witnesses of the further properties *)

Lemma transcript_doubles_witness :
  run_session initial_session (scenario offline_env) = Ok scenario_final /\
  List.length (messages scenario_final) + 3 = 3 * 2 ^ 5.
Proof.
  assert (H : run_session initial_session (scenario offline_env) = Ok scenario_final)
    by (vm_compute; reflexivity).
  split; [exact H | exact (transcript_doubles (scenario offline_env) initial_session scenario_final H)].
Defined.

Lemma node_raises_only_in_itinerary_stage_witness :
  reaches_itinerary_stage (at_length_stage "5 days and 2 people") = false /\
  exists u, travel_node env_forecast_500 (at_length_stage "5 days and 2 people") = Ok u.
Proof.
  split; [reflexivity|]. apply node_raises_only_in_itinerary_stage. reflexivity.
Defined.

Lemma server_reply_is_last_entry_witness :
  match server_chat offline_env [] hello_body with
  | (db', JSONReply r h) =>
      exists st, sess_get "s1" db' = Some st /\ last (messages st) (Human EmptyString) = AI r /\ h = ui st
  | (_, ServerError _) => False
  end.
Proof.
  destruct (server_chat offline_env [] hello_body) as [db' [r h | e]] eqn:E.
  - exact (server_reply_is_last_entry _ _ _ _ _ _ E).
  - vm_compute in E. discriminate E.
Defined.

Lemma server_sessions_isolated_witness :
  "s2" <> session_id hello_body /\
  sess_get "s2" (fst (server_chat offline_env [("s2", at_length_stage "3")] hello_body)) =
  Some (at_length_stage "3").
Proof.
  split; [discriminate|].
  rewrite (server_sessions_isolated offline_env [("s2", at_length_stage "3")] hello_body "s2");
    [reflexivity | discriminate].
Defined.

Lemma server_failed_request_keeps_turn_witness :
  match server_chat env_forecast_500 waiting_db food_body with
  | (db', ServerError e) =>
      sess_get "s1" db' = Some (add_human "food" (at_preferences_stage UiEmpty EmptyString))
  | (_, JSONReply _ _) => False
  end.
Proof.
  destruct (server_chat env_forecast_500 waiting_db food_body) as [db' [r h | e]] eqn:E.
  - vm_compute in E. discriminate E.
  - exact (server_failed_request_keeps_turn _ _ _ _ _ E).
Defined.

Lemma server_preferences_replace_witness :
  exists st, sess_get "s1" (fst (server_chat offline_env [] prefs_body)) = Some st /\
             preferences st = ["food"; "shopping"].
Proof.
  exact (server_preferences_replace offline_env [] prefs_body [" Food "; "Shopping"]
           eq_refl ltac:(discriminate)).
Defined.

Lemma server_preferences_plan_now_witness :
  match server_chat offline_env waiting_db prefs_body with
  | (db', JSONReply r h) =>
      exists st dst d p ws,
        sess_get "s1" db' = Some st /\
        Some "Goa" = Some dst /\ Some 5 = Some (S d) /\ Some 2 = Some (S p) /\
        preferences st = ["food"; "shopping"] /\
        itinerary st = build_itinerary dst (S d) (S p) ["food"; "shopping"] ws
  | (_, ServerError _) => False
  end.
Proof.
  destruct (server_chat offline_env waiting_db prefs_body) as [db' [r h | e]] eqn:E.
  - exact (server_preferences_plan_now offline_env waiting_db db' prefs_body [" Food "; "Shopping"]
             (at_preferences_stage UiEmpty EmptyString) r h eq_refl ltac:(discriminate) eq_refl
             eq_refl eq_refl eq_refl eq_refl eq_refl E).
  - vm_compute in E. discriminate E.
Defined.

Lemma daily_weather_at_most_days_witness :
  match daily_weather env_forecast_3h 0 0 1 (Some "2025-03-01") with
  | Ok ws => List.length ws <= 1
  | Raise _ => False
  end.
Proof.
  destruct (daily_weather env_forecast_3h 0 0 1 (Some "2025-03-01")) as [ws | e] eqn:E.
  - exact (daily_weather_at_most_days _ _ _ _ _ _ E).
  - vm_compute in E. discriminate E.
Defined.

Lemma plan_trip_without_key_witness :
  OPENWEATHER_API_KEY offline_env = EmptyString /\
  exists fact, fun_fact offline_env "goa" = Ok fact /\
    plan_trip offline_env "goa" 2 2 ["food"] (Some "next monday") =
    Ok ("Wow, " ++ py_title "goa" ++ " is a nice place — fun fact: " ++ fact,
        build_itinerary "goa" 2 2 ["food"] []).
Proof.
  split; [reflexivity|]. apply plan_trip_without_key. reflexivity.
Defined.

Lemma daily_weather_precip_percent_witness :
  match daily_weather env_forecast_3h 0 0 5 None with
  | Ok ws => Forall (fun w => (0 <= precip_prob w <= 100)%Z) ws
  | Raise _ => False
  end.
Proof.
  destruct (daily_weather env_forecast_3h 0 0 5 None) as [ws | e] eqn:E.
  - refine (daily_weather_precip_percent env_forecast_3h 0 0 5 None ws _ _ E).
    + intros st daily H. discriminate H.
    + intros st items H. injection H as _ <-.
      repeat constructor; unfold pop_ok; simpl; lra.
  - vm_compute in E. discriminate E.
Defined.

Lemma extract_numbers_show_witness :
  extract_numbers ("I need " ++ py_join " days and " (map show_nat [5; 2]) ++ " people") = [5; 2].
Proof.
  apply extract_numbers_show; [reflexivity | reflexivity | discriminate | reflexivity].
Defined.

Lemma parse_preferences_clean_witness :
  In "shopping" (parse_preferences " Food ,Shopping, ") /\
  "shopping" <> EmptyString /\ py_lower "shopping" = "shopping" /\ has_char "," "shopping" = false.
Proof.
  assert (H : In "shopping" (parse_preferences " Food ,Shopping, ")) by (vm_compute; right; left; reflexivity).
  split; [exact H | exact (parse_preferences_clean _ _ H)].
Defined.

Lemma slice_from_start_date_witness :
  fromisoformat "2025-03-02" = Some (2025, 3, 2)%Z /\
  match slice_from (Some "2025-03-02") 5 (aggregate 5 three_hour_items) with
  | Ok ws' =>
      (exists pre w post, aggregate 5 three_hour_items = (pre ++ w :: post)%list /\
         Forall (dated_before (2025, 3, 2)%Z) pre /\ dated_on_or_after (2025, 3, 2)%Z w /\
         ws' = firstn 5 (w :: post)) \/
      (Forall (dated_before (2025, 3, 2)%Z) (aggregate 5 three_hour_items) /\
       ws' = firstn 5 (aggregate 5 three_hour_items))
  | Raise _ => False
  end.
Proof.
  assert (Hd : fromisoformat "2025-03-02" = Some (2025, 3, 2)%Z) by (vm_compute; reflexivity).
  split; [exact Hd|].
  destruct (slice_from (Some "2025-03-02") 5 (aggregate 5 three_hour_items)) as [ws' | e] eqn:E.
  - exact (slice_from_start_date _ _ _ _ _ Hd E).
  - vm_compute in E. discriminate E.
Defined.

Lemma utc_date_of_timestamp_parses_witness :
  (1 <= utc_year 1740830400 <= 9999)%Z /\
  fromisoformat (utc_date_of_timestamp 1740830400) = Some (civil_from_days (1740830400 / 86400)).
Proof.
  assert (H : (1 <= utc_year 1740830400 <= 9999)%Z) by (vm_compute; split; discriminate).
  split; [exact H | exact (utc_date_of_timestamp_parses _ H)].
Defined.

Lemma daily_weather_onecall_no_raise_witness :
  exists ws, daily_weather env_weather_up 0 0 3 (Some "2025-03-01") = Ok ws /\
    forall w, In w ws -> In w (map oc_entry (firstn 3 [march_first_noon])).
Proof.
  apply (daily_weather_onecall_no_raise env_weather_up 0 0 3 (Some "2025-03-01") [march_first_noon]).
  - discriminate.
  - reflexivity.
  - discriminate.
  - repeat constructor; vm_compute; discriminate.
  - intros sds H _. injection H as <-. vm_compute. discriminate.
Defined.

Example strip_ex : py_strip "  food, Shopping ,  " = "food, Shopping ,".
Proof. reflexivity. Qed.
Example title_ex : py_title "new york o'neil 3rd" = "New York O'Neil 3Rd".
Proof. reflexivity. Qed.
Example runs_ex : find_digit_runs None "5 days and 2 people, 10" = [5; 2; 10]%nat.
Proof. reflexivity. Qed.
Example show_ex : show_nat 1207 = "1207" /\ show_Z (-3)%Z = "-3" /\ show_nat 0%nat = "0".
Proof. repeat split; reflexivity. Qed.
Example round_ex : py_round (5 # 2) = 2%Z /\ py_round (7 # 2) = 4%Z /\ py_round (26 # 10) = 3%Z.
Proof. repeat split; reflexivity. Qed.
Example date_ex : utc_date_of_timestamp 1740787200%Z = "2025-03-01" /\ fromisoformat "2025-02-29" = None
  /\ fromisoformat "2024-02-29" = Some (2024%Z, 2%Z, 29%Z) /\ fromisoformat "next monday" = None.
Proof. repeat split; reflexivity. Qed.
